(** * The profile plugin: run, tool and host discovery

    A shallow embedding of [plugin/xprof/profile_plugin.py]: the filename
    codec ([make_filename], [_parse_filename]), the tool and host
    resolvers ([_get_tools], [_get_active_tools], [_get_hosts],
    [filenames_to_hosts]), the run-directory resolution ([_run_dir]), the
    breadth-first directory walk ([find_all_subdirectories]) and the
    per-run tool enumeration ([generate_tools_of_run]).

    Python strings are [string]s, compared byte-wise (which is the
    code-point order of Python on UTF-8 text); Python sets are [gset]s;
    dictionaries are [gmap]s or, where the insertion order is used,
    association lists; a raised exception is the [Raise] branch of
    [result]. *)

From Stdlib Require Import Ascii.
From stdpp Require Import gmap strings list sorting.

Set Warnings "-clear-no-such-hyp".

(** ** Exceptions and the error monad *)

(** The exception classes the module raises or handles.  [IOError] is an
    alias of [OSError] in Python 3.  [OtherError] stands for any class the
    module has no handler for. *)
Inductive exn : Type :=
  | OSError
  | AttributeError
  | KeyError (key : string)
  | RuntimeError (msg : string)
  | OtherError (name : string).

Inductive result (A : Type) : Type :=
  | Ok (a : A)
  | Raise (e : exn).
Arguments Ok {A} a.
Arguments Raise {A} e.

(** Sequencing, written [x ← m; k]: the first raise ends the computation. *)
#[global] Instance result_bind : MBind result := λ A B k m,
  match m with
  | Ok a => k a
  | Raise e => Raise e
  end.

(** [try: body except classes: handler]. *)
Definition try_except {A} (body : result A) (classes : exn → bool)
    (handler : exn → result A) : result A :=
  match body with
  | Ok a => Ok a
  | Raise e => if classes e then handler e else Raise e
  end.

Definition is_OSError (e : exn) : bool :=
  match e with OSError => true | _ => false end.
Definition is_AttributeError (e : exn) : bool :=
  match e with AttributeError => true | _ => false end.

(** [d[k]] on a dictionary: [KeyError] when the key is missing. *)
Definition getitem {V} (d : gmap string V) (k : string) : result V :=
  match d !! k with
  | Some v => Ok v
  | None => Raise (KeyError k)
  end.

(** ** String operations of Python used by the module *)

(** Truthiness of an [Optional[str]]: [None] and [''] are falsy. *)
Definition truthy (o : option string) : bool :=
  match o with
  | Some (String _ _) => true
  | _ => false
  end.

(** [s[:-1]]: all but the last character (the empty string stays empty). *)
Fixpoint drop_last (s : string) : string :=
  match s with
  | "" => ""
  | String c s' => match s' with "" => "" | _ => String c (drop_last s') end
  end.

(** [s[-1]] of a non-empty string ([None] stands for the IndexError of the
    empty one). *)
Fixpoint last_char (s : string) : option ascii :=
  match s with
  | "" => None
  | String c s' => match s' with "" => Some c | _ => last_char s' end
  end.

(** [s.endswith(suf)], returning what precedes the suffix. *)
Fixpoint strip_suffix (suf s : string) : option string :=
  if String.eqb s suf then Some ""
  else match s with
       | "" => None
       | String c s' => String c <$> strip_suffix suf s'
       end.

Definition endswith (s suf : string) : bool :=
  bool_decide (is_Some (strip_suffix suf s)).

Definition newline : ascii := Ascii.ascii_of_nat 10.

(** What the pattern [.*] accepts: [.] is any character but a newline
    (the pattern is compiled without DOTALL). *)
Fixpoint matches_dot_star (s : string) : bool :=
  match s with
  | "" => true
  | String c s' => negb (Ascii.eqb c newline) && matches_dot_star s'
  end.

(** [s.rstrip(c)] for a single character [c]. *)
Fixpoint rstrip (c : ascii) (s : string) : string :=
  match s with
  | "" => ""
  | String d s' =>
      match rstrip c s' with
      | "" => if Ascii.eqb d c then "" else String d ""
      | r => String d r
      end
  end.

Definition sep : ascii := "/"%char.

(** [p[:i], p[i:]] for [i = p.rfind('/') + 1]. *)
Fixpoint split_at_last_sep (s : string) : string * string :=
  match s with
  | "" => ("", "")
  | String c s' =>
      let '(head, tail) := split_at_last_sep s' in
      if Ascii.eqb c sep then
        match head with
        | "" => (String c "", s')
        | _ => (String c head, tail)
        end
      else
        match head with
        | "" => ("", String c tail)
        | _ => (String c head, tail)
        end
  end.

(** [posixpath.split]: the text before the last slash (without trailing
    slashes, unless it is all slashes) and the text after it. *)
Definition os_path_split (p : string) : string * string :=
  let '(head, tail) := split_at_last_sep p in
  let head := match rstrip sep head with "" => head | h => h end in
  (head, tail).

(** [posixpath.join(a, b)]. *)
Definition os_path_join (a b : string) : string :=
  match b with
  | String c _ =>
      if Ascii.eqb c sep then b
      else if bool_decide (a = "") || endswith a "/" then a +:+ b
      else a +:+ "/" +:+ b
  | "" =>
      if bool_decide (a = "") || endswith a "/" then a else a +:+ "/"
  end.

Definition os_path_basename (p : string) : string := (split_at_last_sep p).2.

(** ** The tool catalog *)

(** [TOOLS], in insertion order. *)
Definition TOOLS : list (string * string) :=
  [("xplane", "xplane.pb"); ("hlo_proto", "hlo_proto.pb")].

Definition TOOLS_dict : gmap string string := list_to_map TOOLS.

Definition ALL_HOSTS : string := "ALL_HOSTS".

Definition _EXTENSION_TO_TOOL : gmap string string :=
  list_to_map ((fun p => (p.2, p.1)) <$> TOOLS).

Definition XPLANE_TOOLS : list string :=
  [ "trace_viewer"; "trace_viewer@"; "overview_page";
    "input_pipeline_analyzer"; "framework_op_stats"; "kernel_stats";
    "memory_profile"; "pod_viewer"; "op_profile"; "hlo_stats";
    "roofline_model"; "inference_profile"; "memory_viewer"; "graph_viewer";
    "megascale_stats" ].

Definition XPLANE_TOOLS_ALL_HOSTS_SUPPORTED : gset string :=
  list_to_set [ "input_pipeline_analyzer"; "framework_op_stats";
                "kernel_stats"; "overview_page"; "pod_viewer";
                "megascale_stats" ].

Definition XPLANE_TOOLS_ALL_HOSTS_ONLY : gset string :=
  list_to_set [ "overview_page"; "pod_viewer" ].

Definition use_xplane (tool : string) : bool :=
  bool_decide (tool ∈ XPLANE_TOOLS).

Definition HLO_TOOLS : gset string :=
  list_to_set [ "graph_viewer"; "memory_viewer" ].

Definition use_hlo (tool : string) : bool :=
  bool_decide (tool ∈ HLO_TOOLS).

(** ** The filename codec *)

Definition make_filename (host tool : string) : result string :=
  let filename := if truthy (Some host) then host +:+ "." else "" in
  let tool :=
    if use_hlo tool then "hlo_proto"
    else if use_xplane tool then "xplane"
    else tool in
  ext ← getitem TOOLS_dict tool;
  Ok (filename +:+ ext).

(** [_FILENAME_RE.fullmatch].  The pattern is an optional part, made of
    group 1 (any run of characters other than a newline) and a literal
    dot, followed by group 2, one of the extensions in the order of
    [TOOLS.values()].  The optional part is tried first, then the bare
    extension.  The result is the pair of groups 1 and 2; group 1 is
    [None] when the optional part did not take part in the match. *)
Definition match_with_host (filename ext : string) : option (string * string) :=
  match strip_suffix ("." +:+ ext) filename with
  | Some h => if matches_dot_star h then Some (h, ext) else None
  | None => None
  end.

Fixpoint first_match {A B} (f : A → option B) (l : list A) : option B :=
  match l with
  | [] => None
  | a :: l' => match f a with Some b => Some b | None => first_match f l' end
  end.

Definition _FILENAME_RE_fullmatch (filename : string)
    : option (option string * string) :=
  let extensions := snd <$> TOOLS in
  match first_match (match_with_host filename) extensions with
  | Some (h, ext) => Some (Some h, ext)
  | None =>
      if bool_decide (filename ∈ extensions) then Some (None, filename)
      else None
  end.

Definition _parse_filename (filename : string)
    : result (option string * option string) :=
  match _FILENAME_RE_fullmatch filename with
  | None => Ok (Some filename, None)
  | Some (g1, g2) =>
      tool ← getitem _EXTENSION_TO_TOOL g2;
      Ok (g1, Some tool)
  end.

(** ** The host resolver *)

(** [sorted(...)] on strings. *)
Definition sorted (l : list string) : list string := merge_sort String.le l.

Fixpoint _get_hosts_loop (filenames : list string) (hosts : gset string)
    : result (gset string) :=
  match filenames with
  | [] => Ok hosts
  | name :: filenames =>
      '(host, _) ← _parse_filename name;
      _get_hosts_loop filenames
        (if truthy host then {[default "" host]} ∪ hosts else hosts)
  end.

Definition _get_hosts (filenames : list string) : result (gset string) :=
  _get_hosts_loop filenames ∅.

Definition filenames_to_hosts (filenames : list string) (tool : string)
    : result (list string) :=
  hosts ← _get_hosts filenames;
  if bool_decide (1 < size hosts) then
    if bool_decide (tool ∈ XPLANE_TOOLS_ALL_HOSTS_ONLY) then
      Ok (sorted [ALL_HOSTS])
    else if bool_decide (tool ∈ XPLANE_TOOLS_ALL_HOSTS_SUPPORTED) then
      Ok (sorted (elements ({[ALL_HOSTS]} ∪ hosts)))
    else Ok (sorted (elements hosts))
  else Ok (sorted (elements hosts)).

(** ** The tool resolver *)

(** What a name such as [filenames] holds before it is read in a loop.
    The [iterdir] and [glob] of [epath.Path] are generators: creating one
    reads nothing and raises nothing, and the directory is read when the
    generator is consumed, which gives the items or raises.  A handler
    may leave a plain list instead. *)
Inductive iterable (A : Type) : Type :=
  | Generator (consumed : result (list A))
  | PyList (items : list A).
Arguments Generator {A} consumed.
Arguments PyList {A} items.

(** Truth value: a generator object is true; a list is true when it is
    not empty. *)
Definition iterable_truthy {A} (it : iterable A) : bool :=
  match it with
  | Generator _ => true
  | PyList [] => false
  | PyList (_ :: _) => true
  end.

(** Iterating to the end, as a comprehension or a [for] loop does. *)
Definition consume {A} (it : iterable A) : result (list A) :=
  match it with
  | Generator consumed => consumed
  | PyList items => Ok items
  end.

Section resolvers.
(** [convert.xspace_to_tool_names], the conversion collaborator: the
    tools a list of xplane files holds, or the exception it raises. *)
Variable xspace_to_tool_names : list string → result (list string).

(** The state of the loop of [_get_tools]: [tools], [found] and
    [xplane_filenames]. *)
Definition scan_state : Type := gset string * gset string * list string.

Definition _get_tools_step (profile_run_dir : string) (st : scan_state)
    (name : string) : result scan_state :=
  let '(tools, found, xplane_filenames) := st in
  '(_, tool) ← _parse_filename name;
  if bool_decide (tool = Some "xplane") then
    Ok (tools, found, xplane_filenames ++ [os_path_join profile_run_dir name])
  else if bool_decide (tool = Some "hlo_proto") then Ok st
  else if truthy tool then
    let tool := default "" tool in
    Ok ({[tool]} ∪ tools,
        (if bool_decide (last_char tool = Some "@"%char)
         then {[drop_last tool]} ∪ found
         else {[tool]} ∪ found),
        xplane_filenames)
  else Ok st.

Fixpoint _get_tools_loop (profile_run_dir : string) (filenames : list string)
    (st : scan_state) : result scan_state :=
  match filenames with
  | [] => Ok st
  | name :: filenames =>
      st ← _get_tools_step profile_run_dir st name;
      _get_tools_loop profile_run_dir filenames st
  end.

(** The loop over [XPLANE_TOOLS] of the branch without a run directory. *)
Definition add_xplane_tools (found tools : gset string) : gset string :=
  foldl (λ tools item,
           if bool_decide (drop_last item ∉ found) then {[item]} ∪ tools
           else tools)
        tools XPLANE_TOOLS.

Definition _get_tools (filenames : list string) (profile_run_dir : string)
    : result (gset string) :=
  '(tools, found, xplane_filenames) ←
    _get_tools_loop profile_run_dir filenames (∅, ∅, []);
  if negb (truthy (Some profile_run_dir)) then
    if bool_decide (xplane_filenames ≠ []) then
      Ok (add_xplane_tools found tools)
    else Ok tools
  else
    (* [Some s]: the [try] body returned [s]; [None]: it fell through. *)
    returned ←
      try_except
        (if bool_decide (xplane_filenames ≠ []) then
           names ← xspace_to_tool_names xplane_filenames;
           Ok (Some (list_to_set names))
         else Ok None)
        is_AttributeError
        (λ _, Ok None);
    match returned with
    | Some s => Ok s
    | None => Ok tools
    end.

Definition _get_active_tools (filenames : list string)
    (profile_run_dir : string) : result (list string) :=
  tools ← _get_tools filenames profile_run_dir;
  let tools : gset string :=
    if bool_decide ("trace_viewer@" ∈ tools)
    then tools ∖ {["trace_viewer"]} else tools in
  let op : gset string := {["overview_page"]} in
  Ok (elements (tools ∩ op) ++ sorted (elements (tools ∖ op))).

(** ** The file system, the run directories and the directory walk *)

(** The file system as the module sees it through [epath.Path]:
    [is_dir p] and the listing [iterdir p] of full child paths, [None]
    when listing fails with an [OSError]. *)
Variable is_dir : string → bool.
Variable iterdir : string → option (list string).

(** [epath.Path(dir).glob(pattern)], consumed: the paths it yields, or the
    exception that consuming it raises.  Which names a pattern selects is
    the path library's business. *)
Variable glob : string → string → result (list string).

(** [plugin_asset_util.PluginDirectory]. *)
Variable PluginDirectory : string → string → string.

(** [self.logdir] and [self._run_to_profile_run_dir]. *)
Variable logdir : string.
Variable _run_to_profile_run_dir : gmap string string.

Definition PLUGIN_NAME : string := "profile".

Definition iterdir_call (p : string) : result (list string) :=
  match iterdir p with
  | Some children => Ok children
  | None => Raise OSError
  end.

Definition _tb_run_directory (logdir run : string) : string :=
  if bool_decide (run = ".") then logdir else os_path_join logdir run.

Definition _run_dir (run : string) : result string :=
  let run := rstrip sep run in
  let '(tb_run_name, profile_run_name) := os_path_split run in
  let tb_run_name :=
    if negb (truthy (Some tb_run_name)) then "." else tb_run_name in
  let tb_run_directory := _tb_run_directory logdir tb_run_name in
  if negb (is_dir tb_run_directory) then
    Raise (RuntimeError ("No matching run directory for run " +:+ run))
  else
    let plugin_directory := PluginDirectory tb_run_directory PLUGIN_NAME in
    Ok (os_path_join plugin_directory profile_run_name).

(** The directory walk of [generate_runs].  The rate limiter around
    [get_subdirectories] only delays the call and is not modelled. *)
Definition get_subdirectories (current_dir : string)
    (dirs_to_visit : list string) : result (list string) :=
  try_except
    (children ← iterdir_call current_dir;
     Ok (dirs_to_visit ++ List.filter is_dir children))
    is_OSError
    (λ _, Ok dirs_to_visit).

(** How a run of the generator ends: the queue is empty, the consumer
    stops asking, or an exception escapes. *)
Inductive walk_end : Type :=
  | Exhausted
  | Suspended
  | Raised (e : exn).

(** The [while dirs_to_visit] loop, run for at most [fuel] rounds: the
    directories yielded, in order, and how the run ended. *)
Fixpoint walk (fuel : nat) (dirs_to_visit : list string)
    : list string * walk_end :=
  match dirs_to_visit with
  | [] => ([], Exhausted)
  | current_dir :: dirs_to_visit =>
      match fuel with
      | 0 => ([], Suspended)
      | S fuel =>
          match get_subdirectories current_dir dirs_to_visit with
          | Ok dirs_to_visit =>
              let '(yielded, ending) := walk fuel dirs_to_visit in
              (current_dir :: yielded, ending)
          | Raise e => ([current_dir], Raised e)
          end
      end
  end.

Definition find_all_subdirectories (fuel : nat) (top_path : string)
    : list string * walk_end :=
  if negb (is_dir top_path) then ([], Exhausted)
  else walk fuel [top_path].

(** [generate_tools_of_run], as the list it yields.  The [try] holds
    only the call of [iterdir], which creates the generator; the listing
    is read by the comprehension, outside the [try]. *)
Definition generate_tools_of_run (run : string) : result (list string) :=
  profile_run_dir ← getitem _run_to_profile_run_dir run;
  if is_dir profile_run_dir then
    filenames ←
      try_except
        (Ok (Generator (iterdir_call profile_run_dir)))
        is_OSError
        (λ _, Ok (PyList []));
    if iterable_truthy filenames then
      names ← consume filenames;
      _get_active_tools (os_path_basename <$> names) profile_run_dir
    else Ok []
  else Ok [].

Record HostMetadata : Type := { hostname : string }.

Definition _run_host_impl (run run_dir tool : string)
    : result (list HostMetadata) :=
  if negb (truthy (Some run_dir)) then Ok []
  else
    let tool_pattern := "*.xplane.pb" in
    filenames ←
      try_except
        (Ok (Generator (glob run_dir tool_pattern)))
        is_OSError
        (λ _, Ok (PyList []));
    names ← consume filenames;
    let filenames := os_path_basename <$> (names : list string) in
    hosts ← filenames_to_hosts filenames tool;
    Ok ((λ host, {| hostname := host |}) <$> (hosts : list string)).

Definition host_impl (run tool : string) : result (list HostMetadata) :=
  run_dir ← _run_dir run;
  _run_host_impl run run_dir tool.
End resolvers.

(** ** Concrete collaborators and file systems used in the examples *)

(** A conversion collaborator that answers [names], and one that raises. *)
Definition collaborator_returning (names : list string)
    : list string → result (list string) := λ _, Ok names.
Definition collaborator_raising (e : exn)
    : list string → result (list string) := λ _, Raise e.

(** Modelled from the spec: [plugin_asset_util.PluginDirectory] is not
    part of the sources at hand; the directory layout consumed is
    [<logdir>/<container>/plugins/profile/<profile-run>], so the plugin
    directory of a container is [container/plugins/<plugin name>]. *)
Definition plugins_directory (tb_run_directory plugin_name : string) : string :=
  os_path_join (os_path_join tb_run_directory "plugins") plugin_name.

(** A log directory [/logs] holding [a/x] and [b]. *)
Definition tree_is_dir (p : string) : bool :=
  bool_decide (p ∈ ["/logs"; "/logs/a"; "/logs/b"; "/logs/a/x"]).

Definition tree_iterdir (p : string) : option (list string) :=
  if bool_decide (p = "/logs") then
    Some ["/logs/a"; "/logs/b"; "/logs/notes.txt"]
  else if bool_decide (p = "/logs/a") then Some ["/logs/a/x"]
  else if bool_decide (p ∈ ["/logs/b"; "/logs/a/x"]) then Some []
  else None.

(** The same tree when listing the root fails. *)
Definition tree_iterdir_root_fails (p : string) : option (list string) :=
  if bool_decide (p = "/logs") then None else tree_iterdir p.

(** A log directory with one profile run, [run1], that holds the xplane
    files of two hosts and the module files of two modules. *)
Definition run1_dir : string := "/logs/plugins/profile/run1".

Definition profile_is_dir (p : string) : bool :=
  bool_decide
    (p ∈ ["/logs"; "/logs/plugins"; "/logs/plugins/profile"; run1_dir]).

Definition profile_iterdir (p : string) : option (list string) :=
  if bool_decide (p = run1_dir) then
    Some [ run1_dir +:+ "/host1.xplane.pb"; run1_dir +:+ "/host2.xplane.pb";
           run1_dir +:+ "/module1.hlo_proto.pb";
           run1_dir +:+ "/module2.hlo_proto.pb" ]
  else if bool_decide (p = "/logs") then Some ["/logs/plugins"]
  else if bool_decide (p = "/logs/plugins") then Some ["/logs/plugins/profile"]
  else if bool_decide (p = "/logs/plugins/profile") then Some [run1_dir]
  else None.

(** What the glob answers there for the two patterns of the module: the
    files of [run1] that the pattern selects. *)
Definition profile_glob (dir pattern : string) : result (list string) :=
  if bool_decide (dir = run1_dir) then
    if bool_decide (pattern = "*.xplane.pb") then
      Ok [ run1_dir +:+ "/host1.xplane.pb"; run1_dir +:+ "/host2.xplane.pb" ]
    else if bool_decide (pattern = "*.hlo_proto.pb") then
      Ok [ run1_dir +:+ "/module1.hlo_proto.pb";
           run1_dir +:+ "/module2.hlo_proto.pb" ]
    else Ok []
  else Ok [].

(** A host name that spans two lines. *)
Definition two_line_host : string := String "a" (String newline "b").

(** The assets of the profile plugin beneath [/logs]: the run [run1]. *)
Definition profile_list_assets (tb_run_directory plugin_name : string)
    : list string :=
  if bool_decide (tb_run_directory = "/logs") then ["run1"] else [].

(** ** Notions used in the statements *)

(** A tool is directly named when [make_filename] looks up its own entry
    of [TOOLS]: it has one and belongs to neither derived family. *)
Definition directly_named (tool : string) : Prop :=
  is_Some (TOOLS_dict !! tool)
  ∧ use_hlo tool = false ∧ use_xplane tool = false.

(** A filename has the extension [ext] when it is [ext] or ends with a dot
    and [ext]. *)
Definition has_extension (filename ext : string) : Prop :=
  filename = ext ∨ ∃ h, filename = h +:+ "." +:+ ext.

(** The extensions of the catalog, in the order of [TOOLS.values()]. *)
Definition extensions : list string := snd <$> TOOLS.

(** [h] is a host decoded from one of [filenames]. *)
Definition decoded_host (filenames : list string) (h : string) : Prop :=
  h ≠ "" ∧ ∃ name tool,
    name ∈ filenames ∧ _parse_filename name = Ok (Some h, tool).

(** The filenames that decode to the consolidated-binary family, and the
    paths [_get_tools] collects for them. *)
Definition decodes_to_xplane (name : string) : bool :=
  match _parse_filename name with
  | Ok (_, Some tool) => String.eqb tool "xplane"
  | _ => false
  end.

Definition xplane_paths (profile_run_dir : string) (filenames : list string)
    : list string :=
  os_path_join profile_run_dir <$> List.filter decodes_to_xplane filenames.

(** A tool name without its streaming marker, as [_get_tools] strips it
    from the directly named tools. *)
Definition strip_streaming (tool : string) : string :=
  if bool_decide (last_char tool = Some "@"%char) then drop_last tool else tool.

(** [c] is a directory that a successful listing of [d] shows. *)
Definition child (is_dir : string → bool)
    (iterdir : string → option (list string)) (d c : string) : Prop :=
  ∃ children, iterdir d = Some children ∧ c ∈ children ∧ is_dir c = true.

(** The directories a visit of [d] appends to the queue. *)
Definition listed_subdirectories (is_dir : string → bool)
    (iterdir : string → option (list string)) (d : string) : list string :=
  match iterdir d with
  | Some children => List.filter is_dir children
  | None => []
  end.

(** The container directory of a frontend run name and the directory of
    its profile run beneath it, as [_run_dir] computes them. *)
Definition container_directory (logdir run : string) : string :=
  let tb_run_name := (os_path_split (rstrip sep run)).1 in
  _tb_run_directory logdir
    (if negb (truthy (Some tb_run_name)) then "." else tb_run_name).

Definition backing_directory (PluginDirectory : string → string → string)
    (logdir run : string) : string :=
  os_path_join (PluginDirectory (container_directory logdir run) PLUGIN_NAME)
    (os_path_split (rstrip sep run)).2.

(** ** The discovery pass, the module list and the asset check *)

(** A Python dictionary whose order of insertion is used: the pairs in the
    order of first insertion; assigning to a key that is present replaces
    the value in place. *)
Fixpoint dict_set {V} (d : list (string * V)) (k : string) (v : V)
    : list (string * V) :=
  match d with
  | [] => [(k, v)]
  | (k', v') :: d' =>
      if String.eqb k' k then (k', v) :: d' else (k', v') :: dict_set d' k v
  end.

Fixpoint dict_get {V} (d : list (string * V)) (k : string) : result V :=
  match d with
  | [] => Raise (KeyError k)
  | (k', v') :: d' => if String.eqb k' k then Ok v' else dict_get d' k
  end.

(** How [validate_xplane_asset_paths] ends: it returns, or raises
    FileNotFoundError with a message. *)
Inductive validation : Type :=
  | Validated
  | FileNotFoundError (msg : string).

Section discovery.
Variable is_dir : string → bool.
Variable glob : string → string → result (list string).
Variable PluginDirectory : string → string → string.

(** [plugin_asset_util.ListAssets]: the names of the assets of a plugin
    beneath a TensorBoard run directory. *)
Variable ListAssets : string → string → list string.

(** [epath.Path(p).exists()]. *)
Variable path_exists : string → bool.

Variable logdir : string.

Definition _plugin_assets (logdir : string) (runs : list string)
    (plugin_name : string) : list (string * list string) :=
  foldl (λ result run,
           let run_path := _tb_run_directory logdir run in
           let assets := ListAssets run_path plugin_name in
           dict_set result run assets)
        [] runs.

(** The state of the last loop of [generate_runs]: the run-directory
    cache, [visited_runs] and the run names yielded so far. *)
Definition runs_state : Type := gmap string string * gset string * list string.

(** The body of the loop over [profile_runs]. *)
Definition generate_runs_profile_run (tb_run_name tb_plugin_dir : string)
    (st : runs_state) (profile_run : string) : runs_state :=
  let '(cache, visited_runs, yielded) := st in
  let profile_run := rstrip sep profile_run in
  let frontend_run :=
    if bool_decide (tb_run_name = ".") then profile_run
    else os_path_join tb_run_name profile_run in
  let profile_run_dir := os_path_join tb_plugin_dir profile_run in
  if is_dir profile_run_dir then
    let cache := <[frontend_run := profile_run_dir]> cache in
    if bool_decide (frontend_run ∉ visited_runs) then
      (cache, {[frontend_run]} ∪ visited_runs, yielded ++ [frontend_run])
    else (cache, visited_runs, yielded)
  else st.

(** The loop over the items of [plugin_assets]. *)
Fixpoint generate_runs_loop (tb_run_names_to_dirs : list (string * string))
    (plugin_assets : list (string * list string)) (st : runs_state)
    : result runs_state :=
  match plugin_assets with
  | [] => Ok st
  | (tb_run_name, profile_runs) :: plugin_assets =>
      tb_run_dir ← dict_get tb_run_names_to_dirs tb_run_name;
      let tb_plugin_dir := PluginDirectory tb_run_dir PLUGIN_NAME in
      generate_runs_loop tb_run_names_to_dirs plugin_assets
        (foldl (generate_runs_profile_run tb_run_name tb_plugin_dir)
           st profile_runs)
  end.

(** [generate_runs] from the point where the set [tb_runs] is complete,
    run to its end: [tb_runs] is given in the order in which the set is
    iterated, and the result is the run names yielded, in order, and the
    run-directory cache afterwards. *)
Definition generate_runs_from (tb_runs : list string)
    (_run_to_profile_run_dir : gmap string string)
    : result (list string * gmap string string) :=
  let tb_run_names_to_dirs :=
    foldl (λ d run, dict_set d run (_tb_run_directory logdir run)) [] tb_runs in
  let plugin_assets :=
    _plugin_assets logdir (fst <$> tb_run_names_to_dirs) PLUGIN_NAME in
  '(cache, _, yielded) ←
    generate_runs_loop tb_run_names_to_dirs plugin_assets
      (_run_to_profile_run_dir, ∅, []);
  Ok (yielded, cache).

(** The loop of [hlo_module_list_impl] over the filenames. *)
Fixpoint module_list_loop (filenames module_list : list string)
    : result (list string) :=
  match filenames with
  | [] => Ok module_list
  | filename :: filenames =>
      '(module_name, _) ← _parse_filename filename;
      module_list_loop filenames
        (if truthy module_name then module_list ++ [default "" module_name]
         else module_list)
  end.

(** [hlo_module_list_impl], from the [run] argument of the request. *)
Definition hlo_module_list_impl (run : string) : result string :=
  run_dir ← _run_dir is_dir PluginDirectory logdir run;
  if negb (truthy (Some run_dir)) then Ok ""
  else
    let tool_pattern := "*.hlo_proto.pb" in
    filenames ←
      try_except
        (Ok (Generator (glob run_dir tool_pattern)))
        is_OSError
        (λ _, Ok (PyList []));
    names ← consume filenames;
    let filenames := os_path_basename <$> (names : list string) in
    module_list ← module_list_loop filenames [];
    Ok (String.concat "," module_list).

Fixpoint validate_xplane_asset_paths (asset_paths : list string) : validation :=
  match asset_paths with
  | [] => Validated
  | asset_path :: asset_paths =>
      if endswith asset_path "xplane.pb" && negb (path_exists asset_path) then
        FileNotFoundError ("Invalid asset path: " +:+ asset_path)
      else validate_xplane_asset_paths asset_paths
  end.
End discovery.

(** The format family that [make_filename] files a catalog tool under. *)
Definition tool_family (tool : string) : string :=
  if use_hlo tool then "hlo_proto" else "xplane".

(** A name without a path separator. *)
Fixpoint sep_free (s : string) : bool :=
  match s with
  | "" => true
  | String c s' => negb (Ascii.eqb c sep) && sep_free s'
  end.

(** The module that a file named [<module>.hlo_proto.pb] holds: what
    precedes the extension, when it is not empty. *)
Definition module_name (filename : string) : option string :=
  match strip_suffix ".hlo_proto.pb" filename with
  | Some (String c h) => Some (String c h)
  | _ => None
  end.

(** The last loop of [generate_runs] when no lookup fails: the container
    directories are those of [_tb_run_directory]. *)
Definition generate_runs_fold (is_dir : string → bool)
    (PluginDirectory : string → string → string) (logdir : string)
    (plugin_assets : list (string * list string)) (st : runs_state)
    : runs_state :=
  foldl (λ st item,
           foldl (generate_runs_profile_run is_dir item.1
                    (PluginDirectory (_tb_run_directory logdir item.1)
                       PLUGIN_NAME))
                 st item.2)
        st plugin_assets.

(** The name of a container that [os.path.split] gives back from a
    frontend run name: the root [.], or a non-empty name that does not end
    with a separator. *)
Definition container_name (tb_run_name : string) : Prop :=
  tb_run_name = "." ∨ tb_run_name ≠ "" ∧ endswith tb_run_name "/" = false.

(** The name of a profile run that is one path component, apart from
    separators at its end. *)
Definition profile_run_name (profile_run : string) : Prop :=
  rstrip sep profile_run ≠ "" ∧ sep_free (rstrip sep profile_run) = true.

(** ** The filename codec: properties *)

Lemma string_app_cons (c : ascii) (s1 s2 : string) :
  String c s1 +:+ s2 = String c (s1 +:+ s2).
Proof. reflexivity. Qed.

Lemma string_app_nil_l (s : string) : "" +:+ s = s.
Proof. reflexivity. Qed.

Lemma string_length_app (s1 s2 : string) :
  String.length (s1 +:+ s2) = String.length s1 + String.length s2.
Proof.
  induction s1 as [|c s1 IH]; [done|].
  rewrite string_app_cons. simpl. by rewrite IH.
Qed.

Lemma string_app_nil_r (s : string) : s +:+ "" = s.
Proof.
  induction s as [|c s IH]; [done|]. by rewrite string_app_cons, IH.
Qed.

Lemma string_app_assoc (s1 s2 s3 : string) :
  (s1 +:+ s2) +:+ s3 = s1 +:+ s2 +:+ s3.
Proof.
  induction s1 as [|c s1 IH]; [done|]. by rewrite !string_app_cons, IH.
Qed.

Lemma strip_suffix_app (suf h : string) : strip_suffix suf (h +:+ suf) = Some h.
Proof.
  induction h as [|c h IH].
  - rewrite string_app_nil_l. destruct suf; simpl; [done|].
    by rewrite Ascii.eqb_refl, String.eqb_refl.
  - rewrite string_app_cons.
    assert (String.eqb (String c (h +:+ suf)) suf = false) as Hne.
    { apply String.eqb_neq. intros Heq.
      apply (f_equal String.length) in Heq.
      simpl in Heq. rewrite string_length_app in Heq. lia. }
    unfold strip_suffix; fold strip_suffix. rewrite Hne, IH. done.
Qed.

Lemma strip_suffix_Some (suf s h : string) :
  strip_suffix suf s = Some h → s = h +:+ suf.
Proof.
  revert h. induction s as [|c s IH]; intros h.
  - destruct suf; simpl; [|done]. by intros [= <-].
  - unfold strip_suffix; fold strip_suffix.
    destruct (String.eqb_spec (String c s) suf) as [->|_].
    + by intros [= <-].
    + destruct (strip_suffix suf s) as [h'|] eqn:E; simpl; [|done].
      intros [= <-]. by rewrite string_app_cons, (IH h').
Qed.

Lemma strip_suffix_None (suf s : string) :
  strip_suffix suf s = None → ∀ h, s ≠ h +:+ suf.
Proof. intros E h ->. by rewrite strip_suffix_app in E. Qed.

Lemma string_app_inv_r (h1 h2 s : string) : h1 +:+ s = h2 +:+ s → h1 = h2.
Proof.
  intros Heq. pose proof (strip_suffix_app s h1) as H1.
  rewrite Heq, strip_suffix_app in H1. congruence.
Qed.

(** Two ways of cutting one string: one of the tails ends with the other. *)
Lemma string_app_eq_suffix (a b s1 s2 : string) :
  a +:+ s1 = b +:+ s2 → (∃ c, s1 = c +:+ s2) ∨ (∃ c, s2 = c +:+ s1).
Proof.
  revert b. induction a as [|x a IH]; intros b.
  - rewrite string_app_nil_l. intros ->. left. by exists b.
  - destruct b as [|y b].
    + rewrite string_app_nil_l. intros <-. right. by exists (String x a).
    + rewrite !string_app_cons. intros [= _ H]. by apply IH in H.
Qed.

Lemma strip_suffix_other (h suf1 suf2 : string) :
  strip_suffix suf1 suf2 = None → strip_suffix suf2 suf1 = None →
  strip_suffix suf1 (h +:+ suf2) = None.
Proof.
  intros H12 H21.
  destruct (strip_suffix suf1 (h +:+ suf2)) as [h'|] eqn:E; [|done].
  apply strip_suffix_Some in E.
  apply string_app_eq_suffix in E as [[c Hc]|[c Hc]].
  - by apply (strip_suffix_None _ _ H12) in Hc.
  - by apply (strip_suffix_None _ _ H21) in Hc.
Qed.

Lemma elem_of_extensions (ext : string) :
  ext ∈ extensions ↔ ext = "xplane.pb" ∨ ext = "hlo_proto.pb".
Proof. unfold extensions. simpl. set_solver. Qed.

Lemma match_with_host_Some (filename ext h e : string) :
  match_with_host filename ext = Some (h, e) →
  e = ext ∧ filename = h +:+ "." +:+ ext ∧ matches_dot_star h = true.
Proof.
  unfold match_with_host.
  destruct (strip_suffix _ filename) as [h'|] eqn:E; [|done].
  destruct (matches_dot_star h') eqn:Hdot; [|done].
  intros [= <- <-]. by apply strip_suffix_Some in E.
Qed.

Lemma match_with_host_None (filename ext h : string) :
  match_with_host filename ext = None →
  filename = h +:+ "." +:+ ext → matches_dot_star h = false.
Proof.
  unfold match_with_host. intros Hm ->.
  rewrite strip_suffix_app in Hm. by destruct (matches_dot_star h).
Qed.

(** What [_FILENAME_RE.fullmatch] answers, case by case. *)
Lemma fullmatch_cases (filename : string) :
  match _FILENAME_RE_fullmatch filename with
  | Some (Some h, ext) =>
      ext ∈ extensions ∧ filename = h +:+ "." +:+ ext
      ∧ matches_dot_star h = true
  | Some (None, ext) => ext ∈ extensions ∧ filename = ext
  | None =>
      ∀ ext, ext ∈ extensions →
        filename ≠ ext
        ∧ ∀ h, filename = h +:+ "." +:+ ext → matches_dot_star h = false
  end.
Proof.
  unfold _FILENAME_RE_fullmatch. fold extensions.
  change extensions with ["xplane.pb"; "hlo_proto.pb"] at 1.
  unfold first_match.
  destruct (match_with_host filename "xplane.pb") as [[h e]|] eqn:E1.
  { apply match_with_host_Some in E1 as (-> & ? & ?).
    rewrite elem_of_extensions. auto. }
  destruct (match_with_host filename "hlo_proto.pb") as [[h e]|] eqn:E2.
  { apply match_with_host_Some in E2 as (-> & ? & ?).
    rewrite elem_of_extensions. auto. }
  case_bool_decide as Hin; [done|].
  intros ext Hext. split; [by intros ->|].
  intros h. apply elem_of_extensions in Hext as [->| ->].
  - by apply match_with_host_None.
  - by apply match_with_host_None.
Qed.

Lemma extension_tool (ext : string) :
  ext ∈ extensions →
  ∃ tool, getitem _EXTENSION_TO_TOOL ext = Ok tool
          ∧ (tool = "xplane" ∨ tool = "hlo_proto").
Proof.
  intros [->| ->]%elem_of_extensions.
  - exists "xplane". split; [by vm_compute | auto].
  - exists "hlo_proto". split; [by vm_compute | auto].
Qed.

(** Decoding never raises, and the tool it finds is a family marker. *)
Lemma parse_filename_total (filename : string) :
  ∃ host tool,
    _parse_filename filename = Ok (host, tool)
    ∧ (tool = None ∨ tool = Some "xplane" ∨ tool = Some "hlo_proto").
Proof.
  unfold _parse_filename.
  pose proof (fullmatch_cases filename) as H.
  destruct (_FILENAME_RE_fullmatch filename) as [[g1 g2]|].
  - assert (g2 ∈ extensions) as Hext by (destruct g1; naive_solver).
    apply extension_tool in Hext as (tool & -> & Htool).
    exists g1, (Some tool). split; [done|]. naive_solver.
  - exists (Some filename), None. auto.
Qed.

Lemma directly_named_cases (tool : string) :
  directly_named tool → tool = "xplane" ∨ tool = "hlo_proto".
Proof.
  intros [[ext Hext] _]. unfold TOOLS_dict in Hext.
  apply elem_of_list_to_map_2 in Hext. unfold TOOLS in Hext. set_solver.
Qed.

Lemma fullmatch_host_extension (host ext : string) :
  matches_dot_star host = true → ext ∈ extensions →
  _FILENAME_RE_fullmatch (host +:+ "." +:+ ext) = Some (Some host, ext).
Proof.
  intros Hdot Hext. unfold _FILENAME_RE_fullmatch.
  change (snd <$> TOOLS) with ["xplane.pb"; "hlo_proto.pb"].
  unfold first_match, match_with_host.
  apply elem_of_extensions in Hext as [->| ->].
  - by rewrite strip_suffix_app, Hdot.
  - rewrite (strip_suffix_other host ("." +:+ "xplane.pb")
               ("." +:+ "hlo_proto.pb")) by (vm_compute; reflexivity).
    by rewrite strip_suffix_app, Hdot.
Qed.

(** C8, as amended: for every host that is non-empty and holds no newline
    and every directly named tool, encoding succeeds and decoding the
    filename gives back the host and the tool. *)
Theorem parse_make_filename_roundtrip (host tool : string) :
  host ≠ "" → matches_dot_star host = true → directly_named tool →
  make_filename host tool ≫= _parse_filename = Ok (Some host, Some tool).
Proof.
  intros Hne Hdot Hdirect.
  assert (truthy (Some host) = true) as Htruthy by (by destruct host).
  assert (∀ tool ext, tool = "xplane" ∧ ext = "xplane.pb"
                      ∨ tool = "hlo_proto" ∧ ext = "hlo_proto.pb" →
          make_filename host tool = Ok (host +:+ "." +:+ ext)) as Hmake.
  { intros t e He. unfold make_filename.
    rewrite Htruthy, <- string_app_assoc.
    by destruct He as [[-> ->]|[-> ->]]. }
  apply directly_named_cases in Hdirect as [->| ->].
  - rewrite (Hmake "xplane" "xplane.pb") by auto.
    change (_parse_filename (host +:+ "." +:+ "xplane.pb")
            = Ok (Some host, Some "xplane")).
    unfold _parse_filename.
    rewrite fullmatch_host_extension;
      [done | done | by apply elem_of_extensions; left].
  - rewrite (Hmake "hlo_proto" "hlo_proto.pb") by auto.
    change (_parse_filename (host +:+ "." +:+ "hlo_proto.pb")
            = Ok (Some host, Some "hlo_proto")).
    unfold _parse_filename.
    rewrite fullmatch_host_extension;
      [done | done | by apply elem_of_extensions; right].
Qed.

Lemma parse_make_filename_roundtrip_witness :
  make_filename "localhost" "hlo_proto" ≫= _parse_filename
  = Ok (Some "localhost", Some "hlo_proto").
Proof.
  apply (parse_make_filename_roundtrip "localhost" "hlo_proto").
  - discriminate.
  - vm_compute. reflexivity.
  - unfold directly_named. vm_compute. eauto.
Defined.

(** C8, as stated, fails: a non-empty host that holds a newline is encoded
    to a filename the pattern does not match, so decoding gives the whole
    filename and no tool. *)
Lemma roundtrip_fails_for_two_line_host :
  ¬ (∀ host tool : string,
       host ≠ "" → directly_named tool →
       make_filename host tool ≫= _parse_filename
       = Ok (Some host, Some tool)).
Proof.
  intros H. specialize (H two_line_host "xplane").
  assert (make_filename two_line_host "xplane" ≫= _parse_filename
          = Ok (Some (two_line_host +:+ ".xplane.pb"), None)) as Hrun
    by (vm_compute; reflexivity).
  rewrite Hrun in H.
  assert (directly_named "xplane") as Hd.
  { unfold directly_named. vm_compute. eauto. }
  specialize (H ltac:(discriminate) Hd). discriminate H.
Qed.

(** C9: a filename with no catalog extension decodes, without raising, to
    the whole filename as host and no tool. *)
Theorem parse_filename_unrecognized (filename : string) :
  (∀ ext, ext ∈ extensions → ¬ has_extension filename ext) →
  _parse_filename filename = Ok (Some filename, None).
Proof.
  intros Hnone. unfold _parse_filename.
  pose proof (fullmatch_cases filename) as H.
  destruct (_FILENAME_RE_fullmatch filename) as [[[h|] ext]|]; [| |done].
  - destruct H as (Hext & -> & _).
    destruct (Hnone ext Hext). right. by exists h.
  - destruct H as (Hext & ->).
    destruct (Hnone ext Hext). by left.
Qed.

Lemma parse_filename_unrecognized_witness :
  _parse_filename "hostA.trace.json.gz" = Ok (Some "hostA.trace.json.gz", None).
Proof.
  apply (parse_filename_unrecognized "hostA.trace.json.gz").
  intros ext Hext [Heq|[h Heq]].
  - apply elem_of_extensions in Hext as [->| ->]; discriminate Heq.
  - apply elem_of_extensions in Hext as [->| ->];
      revert Heq; apply strip_suffix_None; vm_compute; reflexivity.
Defined.

(** ** The host resolver: properties *)

Lemma truthy_Some (o : option string) :
  truthy o = true ↔ ∃ h, o = Some h ∧ h ≠ "".
Proof.
  destruct o as [[|c s]|]; simpl; split; try done.
  - by intros (h & [= <-] & ?).
  - intros _. by eexists.
  - by intros (h & ? & _).
Qed.

Lemma get_hosts_loop_spec (filenames : list string) (acc : gset string) :
  ∃ hosts, _get_hosts_loop filenames acc = Ok hosts
           ∧ ∀ h, h ∈ hosts ↔ h ∈ acc ∨ decoded_host filenames h.
Proof.
  revert acc. induction filenames as [|name filenames IH]; intros acc.
  - exists acc. split; [done|]. intros h. split; [auto|].
    intros [?|(_ & n & t & Hin & _)]; [done|]. by apply elem_of_nil in Hin.
  - destruct (parse_filename_total name) as (host & tool & Hparse & _).
    simpl. rewrite Hparse. simpl.
    destruct (IH (if truthy host then {[default "" host]} ∪ acc else acc))
      as (hosts & -> & Hhosts).
    exists hosts. split; [done|]. intros h. rewrite Hhosts. clear Hhosts IH.
    unfold decoded_host. split.
    + intros [Hacc|(Hne & n & t & Hin & Hn)].
      * destruct (truthy host) eqn:Ht; [|by left].
        apply elem_of_union in Hacc as [Hh|?]; [|by left].
        apply elem_of_singleton in Hh.
        apply truthy_Some in Ht as (h' & -> & Hne). simpl in Hh. subst h'.
        right. split; [done|]. exists name, tool. split; [left|done].
      * right. split; [done|]. exists n, t. split; [by right|done].
    + intros [Hacc|(Hne & n & t & Hin & Hn)].
      * left. destruct (truthy host); [|done]. apply elem_of_union; by right.
      * apply elem_of_cons in Hin as [->|Hin].
        -- left. rewrite Hparse in Hn. injection Hn as -> _.
           assert (truthy (Some h) = true) as -> by (by destruct h).
           simpl. apply elem_of_union; left. by apply elem_of_singleton.
        -- right. split; [done|]. by exists n, t.
Qed.

Lemma get_hosts_spec (filenames : list string) :
  ∃ hosts, _get_hosts filenames = Ok hosts
           ∧ ∀ h, h ∈ hosts ↔ decoded_host filenames h.
Proof.
  destruct (get_hosts_loop_spec filenames ∅) as (hosts & H & Hin).
  exists hosts. split; [done|]. intros h. rewrite Hin. set_solver.
Qed.

(** [sorted] on the elements of a set: in order, without repetition, and
    with the members of the set. *)
Lemma sorted_elements (X : gset string) :
  StronglySorted String.le (sorted (elements X))
  ∧ NoDup (sorted (elements X))
  ∧ ∀ h, h ∈ sorted (elements X) ↔ h ∈ X.
Proof.
  unfold sorted. split; [|split].
  - apply StronglySorted_merge_sort; apply _.
  - rewrite merge_sort_Permutation. apply NoDup_elements.
  - intros h. rewrite merge_sort_Permutation. apply elem_of_elements.
Qed.

(** C3: the host list of [filenames_to_hosts].  With more than one decoded
    host it is the sentinel alone for an all-hosts-only tool, the hosts and
    the sentinel for another all-hosts-supported tool, and the hosts
    otherwise; with at most one host it is the hosts for every tool; it is
    always in ascending string order without repetition. *)
Theorem filenames_to_hosts_spec (filenames : list string) (tool : string) :
  ∃ hosts result,
    _get_hosts filenames = Ok hosts
    ∧ (∀ h, h ∈ hosts ↔ decoded_host filenames h)
    ∧ filenames_to_hosts filenames tool = Ok result
    ∧ StronglySorted String.le result ∧ NoDup result
    ∧ (1 < size hosts → tool ∈ XPLANE_TOOLS_ALL_HOSTS_ONLY →
       result = [ALL_HOSTS])
    ∧ (1 < size hosts → tool ∉ XPLANE_TOOLS_ALL_HOSTS_ONLY →
       tool ∈ XPLANE_TOOLS_ALL_HOSTS_SUPPORTED →
       ∀ h, h ∈ result ↔ h ∈ hosts ∨ h = ALL_HOSTS)
    ∧ (1 < size hosts → tool ∉ XPLANE_TOOLS_ALL_HOSTS_ONLY →
       tool ∉ XPLANE_TOOLS_ALL_HOSTS_SUPPORTED →
       ∀ h, h ∈ result ↔ h ∈ hosts)
    ∧ (size hosts ≤ 1 → ∀ h, h ∈ result ↔ h ∈ hosts).
Proof.
  destruct (get_hosts_spec filenames) as (hosts & Hget & Hhosts).
  exists hosts. unfold filenames_to_hosts. rewrite Hget. simpl.
  destruct (sorted_elements hosts) as (Hs1 & Hn1 & Hm1).
  destruct (sorted_elements ({[ALL_HOSTS]} ∪ hosts)) as (Hs2 & Hn2 & Hm2).
  repeat case_bool_decide; eexists; (split; [done|]); (split; [done|]);
    (split; [reflexivity|]); split_and!;
    try done; try (intros; lia); try (intros; exfalso; done).
  - change (sorted [ALL_HOSTS]) with [ALL_HOSTS]. repeat constructor.
  - change (sorted [ALL_HOSTS]) with [ALL_HOSTS]. apply NoDup_singleton.
  - intros _ _ _ h. rewrite Hm2. set_solver.
Qed.

Lemma filenames_to_hosts_spec_witness :
  filenames_to_hosts ["a.xplane.pb"; "b.xplane.pb"] "overview_page"
  = Ok [ALL_HOSTS].
Proof.
  destruct (filenames_to_hosts_spec ["a.xplane.pb"; "b.xplane.pb"]
              "overview_page")
    as (hosts & result & Hget & _ & Hres & _ & _ & Honly & _).
  rewrite Hres. f_equal. apply Honly.
  - vm_compute in Hget. injection Hget as <-. vm_compute. lia.
  - unfold XPLANE_TOOLS_ALL_HOSTS_ONLY. set_solver.
Defined.

(** The sentinel takes its place in the string order: here between two
    hosts. *)
Example filenames_to_hosts_sentinel_in_the_middle :
  filenames_to_hosts ["b.xplane.pb"; "A.xplane.pb"] "kernel_stats"
  = Ok ["A"; "ALL_HOSTS"; "b"].
Proof. vm_compute. reflexivity. Qed.

Example filenames_to_hosts_examples :
  filenames_to_hosts ["a.xplane.pb"; "b.xplane.pb"] "overview_page"
  = Ok ["ALL_HOSTS"]
  ∧ filenames_to_hosts ["a.xplane.pb"; "b.xplane.pb"] "kernel_stats"
    = Ok ["ALL_HOSTS"; "a"; "b"]
  ∧ filenames_to_hosts ["a.xplane.pb"; "b.xplane.pb"] "trace_viewer"
    = Ok ["a"; "b"]
  ∧ filenames_to_hosts ["a.xplane.pb"] "overview_page" = Ok ["a"].
Proof. vm_compute. auto. Qed.

(** ** The tool resolver: properties *)

Section tool_resolver.
(** No filename decodes to a tool of its own: the loop of [_get_tools]
    only collects the xplane paths. *)
Lemma get_tools_loop_spec (dir : string) (filenames xs : list string) :
  _get_tools_loop dir filenames (∅, ∅, xs)
  = Ok (∅, ∅, xs ++ xplane_paths dir filenames).
Proof.
  revert xs. induction filenames as [|name filenames IH]; intros xs.
  - unfold xplane_paths. simpl. by rewrite app_nil_r.
  - unfold xplane_paths, decodes_to_xplane. simpl.
    destruct (parse_filename_total name) as (host & tool & Hparse & Htool).
    rewrite Hparse. simpl.
    destruct Htool as [->|[->| ->]]; simpl.
    + apply IH.
    + rewrite IH. unfold xplane_paths, decodes_to_xplane.
      by rewrite <- app_assoc.
    + apply IH.
Qed.

Lemma xplane_paths_nonempty (dir : string) (filenames : list string) :
  (∃ name, name ∈ filenames ∧ decodes_to_xplane name = true) →
  xplane_paths dir filenames ≠ [].
Proof.
  intros (name & Hin & Hx) Hnil. unfold xplane_paths in Hnil.
  apply fmap_nil_inv in Hnil.
  assert (name ∈ List.filter decodes_to_xplane filenames) as Hf.
  { apply list_elem_of_In, filter_In. by rewrite <- list_elem_of_In. }
  rewrite Hnil in Hf. by apply elem_of_nil in Hf.
Qed.

Lemma elem_of_add_xplane_tools (found tools : gset string) (item : string) :
  item ∈ add_xplane_tools found tools
  ↔ item ∈ tools ∨ (item ∈ XPLANE_TOOLS ∧ drop_last item ∉ found).
Proof.
  unfold add_xplane_tools. generalize XPLANE_TOOLS as catalog.
  intros catalog. revert tools.
  induction catalog as [|x catalog IH]; intros tools; simpl.
  - set_solver.
  - rewrite IH. case_bool_decide; set_solver.
Qed.

Variable xspace_to_tool_names : list string → result (list string).

Lemma get_tools_without_run_dir (filenames : list string) :
  xplane_paths "" filenames ≠ [] →
  _get_tools xspace_to_tool_names filenames "" = Ok (add_xplane_tools ∅ ∅).
Proof.
  intros Hx. unfold _get_tools. rewrite get_tools_loop_spec. simpl.
  by rewrite bool_decide_true.
Qed.

Lemma get_tools_with_run_dir (filenames : list string) (dir : string) :
  dir ≠ "" → xplane_paths dir filenames ≠ [] →
  _get_tools xspace_to_tool_names filenames dir
  = match xspace_to_tool_names (xplane_paths dir filenames) with
    | Ok names => Ok (list_to_set names)
    | Raise AttributeError => Ok ∅
    | Raise e => Raise e
    end.
Proof.
  intros Hdir Hx. unfold _get_tools. rewrite get_tools_loop_spec.
  assert (truthy (Some dir) = true) as Ht by (by destruct dir).
  cbn [mbind result_bind app]. rewrite Ht, bool_decide_true by done.
  cbn [negb]. destruct (xspace_to_tool_names _) as [names|[]]; done.
Qed.
End tool_resolver.

(** C5: with an xplane file among the filenames and no run directory,
    [_get_tools] adds every catalog tool whose name without the streaming
    marker was not found as a directly named file, and no catalog tool
    whose stripped name was found.  No filename decodes to a tool of its
    own, so nothing is ever found and the result is the whole catalog. *)
Theorem get_tools_synthesizes_catalog
    (xspace_to_tool_names : list string → result (list string))
    (filenames : list string) :
  (∃ name, name ∈ filenames ∧ decodes_to_xplane name = true) →
  ∃ tools found xplane_filenames result,
    _get_tools_loop "" filenames (∅, ∅, [])
    = Ok (tools, found, xplane_filenames)
    ∧ _get_tools xspace_to_tool_names filenames "" = Ok result
    ∧ (∀ item, item ∈ XPLANE_TOOLS → strip_streaming item ∉ found →
               item ∈ result)
    ∧ (∀ item, item ∈ XPLANE_TOOLS → strip_streaming item ∈ found →
               item ∈ result → item ∈ tools)
    ∧ (∀ item, item ∈ result → item ∈ tools ∨ item ∈ XPLANE_TOOLS)
    ∧ tools = ∅ ∧ found = ∅.
Proof.
  intros Hx. apply (xplane_paths_nonempty "") in Hx.
  exists ∅, ∅, (xplane_paths "" filenames), (add_xplane_tools ∅ ∅).
  split; [apply (get_tools_loop_spec "" filenames [])|].
  split; [by apply get_tools_without_run_dir|].
  split_and!; try done.
  - intros item Hitem _. apply elem_of_add_xplane_tools. right.
    split; [done|]. apply not_elem_of_empty.
  - intros item [?|[? _]]%elem_of_add_xplane_tools; auto.
Qed.

Lemma get_tools_synthesizes_catalog_witness :
  ∃ result,
    _get_tools (collaborator_returning []) ["host1.xplane.pb"; "notes.txt"] ""
    = Ok result
    ∧ "kernel_stats" ∈ result.
Proof.
  destruct (get_tools_synthesizes_catalog (collaborator_returning [])
              ["host1.xplane.pb"; "notes.txt"])
    as (tools & found & xs & result & _ & Hres & Hadd & _ & _ & _ & ->).
  - exists "host1.xplane.pb". split; [left | vm_compute; reflexivity].
  - exists result. split; [exact Hres|]. apply Hadd.
    + unfold XPLANE_TOOLS. set_solver.
    + apply not_elem_of_empty.
Defined.

(** C6, as amended: with an xplane file among the filenames and a run
    directory, [_get_tools] hands the xplane paths to the conversion
    collaborator.  Its answer, as a set, is the result; when it fails with
    [AttributeError] the result is the set of directly named tools; any
    other failure is raised to the caller. *)
Theorem get_tools_delegates
    (xspace_to_tool_names : list string → result (list string))
    (filenames : list string) (profile_run_dir : string) :
  profile_run_dir ≠ "" →
  (∃ name, name ∈ filenames ∧ decodes_to_xplane name = true) →
  ∃ tools found,
    let xplane_filenames := xplane_paths profile_run_dir filenames in
    _get_tools_loop profile_run_dir filenames (∅, ∅, [])
    = Ok (tools, found, xplane_filenames)
    ∧ (∀ names, xspace_to_tool_names xplane_filenames = Ok names →
         _get_tools xspace_to_tool_names filenames profile_run_dir
         = Ok (list_to_set names))
    ∧ (xspace_to_tool_names xplane_filenames = Raise AttributeError →
         _get_tools xspace_to_tool_names filenames profile_run_dir = Ok tools)
    ∧ (∀ e, e ≠ AttributeError →
         xspace_to_tool_names xplane_filenames = Raise e →
         _get_tools xspace_to_tool_names filenames profile_run_dir = Raise e).
Proof.
  intros Hdir Hx. apply (xplane_paths_nonempty profile_run_dir) in Hx.
  exists ∅, ∅. simpl.
  split; [apply (get_tools_loop_spec profile_run_dir filenames [])|].
  rewrite (get_tools_with_run_dir _ _ _ Hdir Hx).
  split_and!.
  - by intros names ->.
  - by intros ->.
  - intros e He ->. by destruct e.
Qed.

Lemma get_tools_delegates_witness :
  _get_tools (collaborator_returning ["trace_viewer@"; "op_profile"])
    ["host1.xplane.pb"] run1_dir
  = Ok (list_to_set ["trace_viewer@"; "op_profile"]).
Proof.
  destruct (get_tools_delegates
              (collaborator_returning ["trace_viewer@"; "op_profile"])
              ["host1.xplane.pb"] run1_dir) as (tools & found & _ & H & _).
  - discriminate.
  - exists "host1.xplane.pb". split; [left | vm_compute; reflexivity].
  - apply H. reflexivity.
Defined.

(** C6, as stated, fails: a failure of the collaborator that is not an
    [AttributeError] is not turned into the directly named tools; it
    reaches the caller. *)
Lemma get_tools_raises_other_failures :
  ¬ (∀ (xspace_to_tool_names : list string → result (list string))
       (filenames : list string) (profile_run_dir : string) (e : exn),
       profile_run_dir ≠ "" →
       (∃ name, name ∈ filenames ∧ decodes_to_xplane name = true) →
       xspace_to_tool_names (xplane_paths profile_run_dir filenames) = Raise e →
       ∃ tools found xplane_filenames,
         _get_tools_loop profile_run_dir filenames (∅, ∅, [])
         = Ok (tools, found, xplane_filenames)
         ∧ _get_tools xspace_to_tool_names filenames profile_run_dir
           = Ok tools).
Proof.
  intros H.
  destruct (H (collaborator_raising (OtherError "ValueError"))
              ["host1.xplane.pb"] run1_dir (OtherError "ValueError"))
    as (tools & found & xs & _ & Hres).
  - discriminate.
  - exists "host1.xplane.pb". split; [left | vm_compute; reflexivity].
  - reflexivity.
  - assert (_get_tools (collaborator_raising (OtherError "ValueError"))
              ["host1.xplane.pb"] run1_dir
            = Raise (OtherError "ValueError")) as Hrun
      by (vm_compute; reflexivity).
    rewrite Hrun in Hres. discriminate Hres.
Qed.

(** ** The ordering of the active tools *)

Lemma elements_inter_singleton (X : gset string) (x : string) :
  elements (X ∩ {[x]}) = if bool_decide (x ∈ X) then [x] else [].
Proof.
  case_bool_decide as Hx.
  - assert (X ∩ {[x]} = {[x]}) as -> by set_solver.
    apply elements_singleton.
  - assert (X ∩ {[x]} = ∅) as -> by set_solver.
    apply elements_empty.
Qed.

(** In the catalog the trace viewer is the one tool with a streaming
    variant. *)
Lemma xplane_tools_variants (t : string) :
  t +:+ "@" ∈ XPLANE_TOOLS → t = "trace_viewer".
Proof.
  intros Hstream. apply list_elem_of_In in Hstream. simpl in Hstream.
  repeat
    match goal with
    | H : _ ∨ _ |- _ => destruct H as [H|H]
    | H : False |- _ => destruct H
    end;
    try (symmetry; apply (string_app_inv_r "trace_viewer" t "@"); exact Hstream);
    exfalso;
    (eapply strip_suffix_None; [|exact Hstream]); vm_compute; reflexivity.
Qed.

(** C4: for a set of resolved tools of the catalog, the list of
    [_get_active_tools] holds the resolved tools without the non-streaming
    variant of a tool whose streaming variant, with the trailing [@], is
    among them; [overview_page], if present, comes first and the other
    tools follow in ascending order.  The three tools of the example come
    out as overview_page, hlo_stats, kernel_stats. *)
Theorem get_active_tools_spec :
  (∀ (xspace_to_tool_names : list string → result (list string))
     (filenames : list string) (profile_run_dir : string)
     (tools : gset string),
     _get_tools xspace_to_tool_names filenames profile_run_dir = Ok tools →
     (∀ t, t ∈ tools → t ∈ XPLANE_TOOLS) →
     ∃ result rest,
       _get_active_tools xspace_to_tool_names filenames profile_run_dir
       = Ok result
       ∧ (∀ t, t ∈ result ↔ t ∈ tools ∧ t +:+ "@" ∉ tools)
       ∧ NoDup result
       ∧ result = (if bool_decide ("overview_page" ∈ tools)
                   then ["overview_page"] else []) ++ rest
       ∧ StronglySorted String.le rest
       ∧ "overview_page" ∉ rest)
  ∧ _get_active_tools
      (collaborator_returning ["kernel_stats"; "overview_page"; "hlo_stats"])
      ["host1.xplane.pb"] run1_dir
    = Ok ["overview_page"; "hlo_stats"; "kernel_stats"].
Proof.
  split; [|vm_compute; reflexivity].
  intros coll filenames dir tools Htools Hcatalog.
  unfold _get_active_tools. rewrite Htools. cbn [mbind result_bind].
  set (kept := if bool_decide ("trace_viewer@" ∈ tools)
               then tools ∖ {["trace_viewer"]} else tools).
  assert (∀ t, t ∈ kept ↔ t ∈ tools ∧ t +:+ "@" ∉ tools) as Hkept.
  { intros t. unfold kept. case_bool_decide as Hstream.
    - rewrite elem_of_difference, elem_of_singleton. split.
      + intros [Ht Hne]. split; [done|]. intros Hboth. apply Hne.
        by apply xplane_tools_variants, Hcatalog.
      + intros [Ht Hnone]. split; [done|]. by intros ->.
    - split; [|by intros [? _]]. intros Ht. split; [done|]. intros Hboth.
      apply Hstream.
      assert (t = "trace_viewer") as ->
        by (by apply xplane_tools_variants, Hcatalog).
      exact Hboth. }
  assert ("overview_page" ∈ kept ↔ "overview_page" ∈ tools) as Hop.
  { rewrite Hkept. split; [by intros [? _]|]. intros ?. split; [done|].
    by intros Hboth%Hcatalog%xplane_tools_variants. }
  destruct (sorted_elements (kept ∖ {["overview_page"]})) as (Hs & Hn & Hm).
  exists (elements (kept ∩ {["overview_page"]})
          ++ sorted (elements (kept ∖ {["overview_page"]}))),
         (sorted (elements (kept ∖ {["overview_page"]}))).
  rewrite elements_inter_singleton.
  rewrite (bool_decide_ext _ _ Hop).
  split_and!; try done.
  - intros t. rewrite <- Hkept, elem_of_app, Hm.
    case_bool_decide as Hin; [|set_solver].
    apply Hop in Hin.
    destruct (decide (t = "overview_page")); set_solver.
  - apply NoDup_app. split_and!; [|  |done].
    + case_bool_decide; [apply NoDup_singleton | apply NoDup_nil_2].
    + intros t Ht. rewrite Hm. case_bool_decide; set_solver.
  - rewrite Hm. set_solver.
Qed.

Lemma get_active_tools_spec_witness :
  ∃ result,
    _get_active_tools (collaborator_returning ["trace_viewer"; "trace_viewer@"])
      ["host1.xplane.pb"] run1_dir = Ok result
    ∧ ("trace_viewer" ∉ result) ∧ ("trace_viewer@" ∈ result).
Proof.
  destruct (proj1 get_active_tools_spec
              (collaborator_returning ["trace_viewer"; "trace_viewer@"])
              ["host1.xplane.pb"] run1_dir
              (list_to_set ["trace_viewer"; "trace_viewer@"]))
    as (result & rest & Hres & Hmem & _).
  - vm_compute. reflexivity.
  - intros t Ht. apply elem_of_list_to_set in Ht. apply list_elem_of_In in Ht.
    apply list_elem_of_In. simpl in *. tauto.
  - exists result. split; [exact Hres|]. rewrite !Hmem.
    rewrite !elem_of_list_to_set. split.
    + intros [_ Hnot]. apply Hnot. right. left.
    + split; [right; left|].
      intros Hin. apply list_elem_of_In in Hin. simpl in Hin.
      destruct Hin as [Hin|[Hin|[]]]; discriminate Hin.
Defined.

(** ** The directory walk: properties *)

Section walk_properties.
Variable is_dir : string → bool.
Variable iterdir : string → option (list string).

Lemma get_subdirectories_ok (d : string) (q : list string) :
  get_subdirectories is_dir iterdir d q
  = Ok (q ++ listed_subdirectories is_dir iterdir d).
Proof.
  unfold get_subdirectories, listed_subdirectories, iterdir_call.
  destruct (iterdir d) as [children|]; simpl; [done|].
  by rewrite app_nil_r.
Qed.

Lemma elem_of_listed_subdirectories (d c : string) :
  c ∈ listed_subdirectories is_dir iterdir d ↔ child is_dir iterdir d c.
Proof.
  unfold listed_subdirectories, child.
  destruct (iterdir d) as [children|].
  - rewrite list_elem_of_In, filter_In, <- list_elem_of_In. split.
    + intros [? ?]. by exists children.
    + by intros (? & [= <-] & ? & ?).
  - split; [by intros ?%elem_of_nil | by intros (? & ? & _)].
Qed.

Lemma walk_cons (fuel : nat) (d : string) (q : list string) :
  walk is_dir iterdir (S fuel) (d :: q)
  = let rest :=
      walk is_dir iterdir fuel (q ++ listed_subdirectories is_dir iterdir d) in
    (d :: rest.1, rest.2).
Proof.
  simpl. rewrite get_subdirectories_ok.
  by destruct (walk _ _ fuel _).
Qed.

Lemma walk_never_raises (fuel : nat) (q : list string) (e : exn) :
  (walk is_dir iterdir fuel q).2 ≠ Raised e.
Proof.
  revert q. induction fuel as [|fuel IH]; intros [|d q]; try done.
  rewrite walk_cons. apply IH.
Qed.

(** A directory in the queue is yielded, given enough rounds. *)
Lemma walk_yields_queued (q1 q2 : list string) (d : string) :
  ∃ fuel, d ∈ (walk is_dir iterdir fuel (q1 ++ d :: q2)).1.
Proof.
  revert q2. induction q1 as [|x q1 IH]; intros q2.
  - exists 1. rewrite app_nil_l, walk_cons. left.
  - destruct (IH (q2 ++ listed_subdirectories is_dir iterdir x)) as [fuel Hfuel].
    exists (S fuel). rewrite <- app_comm_cons, walk_cons. right.
    by rewrite <- app_assoc, <- app_comm_cons.
Qed.

Lemma walk_yields_elem_of (q : list string) (d : string) :
  d ∈ q → ∃ fuel, d ∈ (walk is_dir iterdir fuel q).1.
Proof.
  intros (q1 & q2 & ->)%list_elem_of_split. apply walk_yields_queued.
Qed.

(** The directories listed under a yielded directory are yielded too. *)
Lemma walk_yields_child (fuel : nat) (q : list string) (d c : string) :
  d ∈ (walk is_dir iterdir fuel q).1 → child is_dir iterdir d c →
  ∃ fuel', c ∈ (walk is_dir iterdir fuel' q).1.
Proof.
  intros Hd Hc. revert q Hd.
  induction fuel as [|fuel IH]; intros [|x q];
    try (by intros ?%elem_of_nil).
  rewrite walk_cons. intros [<-|Hd]%elem_of_cons.
  - destruct (walk_yields_elem_of (q ++ listed_subdirectories is_dir iterdir d) c)
      as [fuel' Hfuel'].
    { apply elem_of_app. right. by apply elem_of_listed_subdirectories. }
    exists (S fuel'). rewrite walk_cons. by right.
  - destruct (IH _ Hd) as [fuel' Hfuel'].
    exists (S fuel'). rewrite walk_cons. by right.
Qed.

(** Whatever is yielded was in the queue or is reached from it. *)
Lemma walk_yields_reachable (fuel : nat) (q : list string) (d : string) :
  d ∈ (walk is_dir iterdir fuel q).1 → ∃ x, x ∈ q ∧ rtc (child is_dir iterdir) x d.
Proof.
  revert q. induction fuel as [|fuel IH]; intros [|x q];
    try (by intros ?%elem_of_nil).
  rewrite walk_cons. intros [->|Hd]%elem_of_cons.
  - exists x. split; [left | done].
  - destruct (IH _ Hd) as (y & [Hy|Hy]%elem_of_app & Hreach).
    + exists y. split; [by right | done].
    + exists x. split; [left|].
      apply elem_of_listed_subdirectories in Hy. by eapply rtc_l.
Qed.

(** C2: the walk from a directory [root] yields [root] first, also when
    nothing is listed under it; a listing that fails leaves the queue as
    it is, so no exception escapes the walk; every directory reached
    from [root] through successful listings is yielded, given enough
    rounds; and the walk from a [root] that is not a directory yields
    nothing. *)
Theorem find_all_subdirectories_spec (root : string) :
  (is_dir root = true →
     ∀ fuel, ∃ rest,
       (find_all_subdirectories is_dir iterdir (S fuel) root).1 = root :: rest)
  ∧ (is_dir root = true → listed_subdirectories is_dir iterdir root = [] →
     ∀ fuel, find_all_subdirectories is_dir iterdir (S fuel) root = ([root], Exhausted))
  ∧ (∀ d q, iterdir d = None → get_subdirectories is_dir iterdir d q = Ok q)
  ∧ (∀ fuel e, (find_all_subdirectories is_dir iterdir fuel root).2 ≠ Raised e)
  ∧ (is_dir root = true →
     ∀ d, rtc (child is_dir iterdir) root d →
          ∃ fuel, d ∈ (find_all_subdirectories is_dir iterdir fuel root).1)
  ∧ (is_dir root = false →
     ∀ fuel, find_all_subdirectories is_dir iterdir fuel root = ([], Exhausted)).
Proof.
  unfold find_all_subdirectories. split_and!.
  - intros -> fuel. simpl negb. cbn iota. rewrite walk_cons. by eexists.
  - intros -> Hnone fuel. simpl negb. cbn iota.
    rewrite walk_cons, Hnone. by destruct fuel.
  - intros d q Hfail. rewrite get_subdirectories_ok.
    unfold listed_subdirectories. by rewrite Hfail, app_nil_r.
  - intros fuel e. destruct (is_dir root); simpl; [|done].
    apply walk_never_raises.
  - intros ->. simpl negb. cbn iota. apply rtc_ind_r.
    + exists 1. rewrite walk_cons. left.
    + intros y z _ Hchild [fuel IH].
      by apply (walk_yields_child fuel _ y).
  - by intros ->.
Qed.
End walk_properties.

Lemma find_all_subdirectories_spec_witness :
  find_all_subdirectories tree_is_dir tree_iterdir_root_fails 3 "/logs"
  = (["/logs"], Exhausted).
Proof.
  destruct (find_all_subdirectories_spec tree_is_dir tree_iterdir_root_fails
              "/logs") as (_ & H & _).
  apply H; vm_compute; reflexivity.
Defined.

(** The walk is breadth-first: [b] comes before [a/x]. *)
Example find_all_subdirectories_tree :
  find_all_subdirectories tree_is_dir tree_iterdir 10 "/logs"
  = (["/logs"; "/logs/a"; "/logs/b"; "/logs/a/x"], Exhausted).
Proof. vm_compute. reflexivity. Qed.

(** ** The run directory: properties *)

(** C1, as amended: resolving a frontend run name fails, with the
    RuntimeError "No matching run directory", when the container directory
    of the name is not a directory; otherwise it gives the directory of
    the profile run beneath the container's plugin directory. *)
Theorem run_dir_spec (is_dir : string → bool)
    (PluginDirectory : string → string → string) (logdir run : string) :
  (is_dir (container_directory logdir run) = false →
     _run_dir is_dir PluginDirectory logdir run
     = Raise (RuntimeError ("No matching run directory for run "
                            +:+ rstrip sep run)))
  ∧ (is_dir (container_directory logdir run) = true →
     _run_dir is_dir PluginDirectory logdir run
     = Ok (backing_directory PluginDirectory logdir run)).
Proof.
  unfold _run_dir, backing_directory, container_directory.
  destruct (os_path_split (rstrip sep run)) as [tb_run_name profile_run_name].
  cbn [fst snd]. split; intros ->; reflexivity.
Qed.

Lemma run_dir_spec_witness :
  _run_dir tree_is_dir plugins_directory "/logs" "zz/run1"
  = Raise (RuntimeError "No matching run directory for run zz/run1")
  ∧ _run_dir tree_is_dir plugins_directory "/logs" "a/run1/"
    = Ok "/logs/a/plugins/profile/run1".
Proof.
  split.
  - apply (proj1 (run_dir_spec tree_is_dir plugins_directory "/logs" "zz/run1")).
    vm_compute. reflexivity.
  - apply (proj2 (run_dir_spec tree_is_dir plugins_directory "/logs" "a/run1/")).
    vm_compute. reflexivity.
Defined.

(** C1, as stated, fails: a run name without a directory under an existing
    log directory resolves to a path, whether or not the profile run
    exists. *)
Lemma run_dir_resolves_missing_profile_run :
  ¬ (∀ (is_dir : string → bool) (PluginDirectory : string → string → string)
       (logdir run : string),
       is_dir (backing_directory PluginDirectory logdir run) = false →
       ∃ msg, _run_dir is_dir PluginDirectory logdir run
              = Raise (RuntimeError msg)).
Proof.
  intros H.
  destruct (H tree_is_dir plugins_directory "/logs" "ghost") as [msg Hmsg].
  - vm_compute. reflexivity.
  - assert (_run_dir tree_is_dir plugins_directory "/logs" "ghost"
            = Ok "/logs/plugins/profile/ghost") as Hrun
      by (vm_compute; reflexivity).
    rewrite Hrun in Hmsg. discriminate Hmsg.
Qed.

(** ** The hosts and the tools of a run *)

(** C7 fails on the code: for a module-binary-derived tool the hosts of a
    run are still read from its xplane files; the module files are not
    looked at. *)
Theorem host_impl_memory_viewer_lists_xplane_hosts :
  host_impl profile_is_dir profile_glob plugins_directory "/logs"
    "run1" "memory_viewer"
  = Ok [ {| hostname := "host1" |}; {| hostname := "host2" |} ].
Proof. vm_compute. reflexivity. Qed.

(** C10: for a run name that is not a key of the run-directory cache,
    enumerating the tools of the run raises KeyError at the cache access. *)
Theorem generate_tools_of_run_unknown_run
    (xspace_to_tool_names : list string → result (list string))
    (is_dir : string → bool) (iterdir : string → option (list string))
    (_run_to_profile_run_dir : gmap string string) (run : string) :
  _run_to_profile_run_dir !! run = None →
  generate_tools_of_run xspace_to_tool_names is_dir iterdir
    _run_to_profile_run_dir run
  = Raise (KeyError run).
Proof.
  intros Hmiss. unfold generate_tools_of_run, getitem. by rewrite Hmiss.
Qed.

Lemma generate_tools_of_run_unknown_run_witness :
  generate_tools_of_run (collaborator_returning []) profile_is_dir
    profile_iterdir {[ "run1" := run1_dir ]} "ghost"
  = Raise (KeyError "ghost").
Proof.
  apply generate_tools_of_run_unknown_run. vm_compute. reflexivity.
Defined.

(** A run of the cache is enumerated through the conversion collaborator. *)
Example generate_tools_of_run_known_run :
  generate_tools_of_run
    (collaborator_returning ["trace_viewer@"; "overview_page"; "hlo_stats"])
    profile_is_dir profile_iterdir {[ "run1" := run1_dir ]} "run1"
  = Ok ["overview_page"; "hlo_stats"; "trace_viewer@"].
Proof. vm_compute. reflexivity. Qed.

(** * Further properties of the module *)

(** ** The filename codec *)

Lemma truthy_nonempty (s : string) : s ≠ "" → truthy (Some s) = true.
Proof. by destruct s. Qed.

Lemma tools_dict_lookup (tool : string) :
  getitem TOOLS_dict tool
  = if bool_decide (tool = "xplane") then Ok "xplane.pb"
    else if bool_decide (tool = "hlo_proto") then Ok "hlo_proto.pb"
    else Raise (KeyError tool).
Proof.
  unfold getitem, TOOLS_dict, TOOLS. simpl.
  repeat case_bool_decide; subst; try done.
  by rewrite !lookup_insert_ne, lookup_empty by done.
Qed.

(** The filename prefix [make_filename] builds from the host. *)
Lemma make_filename_family (host tool : string) :
  use_hlo tool = true ∨ use_xplane tool = true →
  make_filename host tool
  = Ok ((if truthy (Some host) then host +:+ "." else "")
        +:+ (if use_hlo tool then "hlo_proto.pb" else "xplane.pb")).
Proof.
  unfold make_filename. destruct (use_hlo tool); [done|].
  by intros [?| ->].
Qed.

(** X1: [make_filename] raises KeyError, naming the tool, exactly for the
    tools that are neither module-derived, nor xplane-derived, nor the
    family markers themselves; for every other tool it returns a filename
    with a catalog extension. *)
Theorem make_filename_known_tools (host tool : string) :
  let known :=
    use_hlo tool = true ∨ use_xplane tool = true
    ∨ tool = "xplane" ∨ tool = "hlo_proto" in
  (known → ∃ filename ext,
     make_filename host tool = Ok filename
     ∧ ext ∈ extensions ∧ has_extension filename ext)
  ∧ (¬ known → make_filename host tool = Raise (KeyError tool)).
Proof.
  assert (∀ ext, ext ∈ extensions →
            has_extension ((if truthy (Some host) then host +:+ "." else "")
                           +:+ ext) ext) as Hext.
  { intros ext _. destruct (truthy (Some host)); [right | by left].
    exists host. by rewrite string_app_assoc. }
  simpl. split.
  - intros Hknown.
    destruct (use_hlo tool) eqn:Hhlo.
    { eexists _, "hlo_proto.pb". rewrite make_filename_family by auto.
      rewrite Hhlo. split; [done|]. split; [|apply Hext];
        apply elem_of_extensions; auto. }
    destruct (use_xplane tool) eqn:Hx.
    { eexists _, "xplane.pb". rewrite make_filename_family by auto.
      rewrite Hhlo. split; [done|]. split; [|apply Hext];
        apply elem_of_extensions; auto. }
    unfold make_filename. rewrite Hhlo, Hx, tools_dict_lookup.
    destruct Hknown as [?|[?|[->| ->]]]; try done.
    + eexists _, "xplane.pb". split; [done|]. split; [|apply Hext];
        apply elem_of_extensions; auto.
    + eexists _, "hlo_proto.pb". split; [done|]. split; [|apply Hext];
        apply elem_of_extensions; auto.
  - intros Hunknown. unfold make_filename.
    destruct (use_hlo tool); [tauto|]. destruct (use_xplane tool); [tauto|].
    rewrite tools_dict_lookup. repeat case_bool_decide; tauto.
Qed.

Lemma make_filename_known_tools_witness :
  (∃ filename ext,
     make_filename "host1" "op_profile" = Ok filename
     ∧ ext ∈ extensions ∧ has_extension filename ext)
  ∧ make_filename "host1" "tensorflow_stats" = Raise (KeyError "tensorflow_stats").
Proof.
  split.
  - apply (proj1 (make_filename_known_tools "host1" "op_profile")).
    right; left. vm_compute. reflexivity.
  - apply (proj2 (make_filename_known_tools "host1" "tensorflow_stats")).
    intros [H|[H|[H|H]]]; vm_compute in H; discriminate H.
Defined.

(** X2: encoding a host and a derived tool and decoding the filename gives
    the host back, but the family marker in place of the tool: a
    module-derived tool comes back as hlo_proto (also when it is in the
    xplane list), any other xplane-derived tool as xplane. *)
Theorem parse_make_filename_family (host tool : string) :
  host ≠ "" → matches_dot_star host = true →
  use_hlo tool = true ∨ use_xplane tool = true →
  make_filename host tool ≫= _parse_filename
  = Ok (Some host, Some (tool_family tool)).
Proof.
  intros Hne Hdot Hfam. rewrite make_filename_family by done.
  rewrite truthy_nonempty, string_app_assoc by done.
  unfold tool_family.
  change (_parse_filename
            (host +:+ "." +:+
               (if use_hlo tool then "hlo_proto.pb" else "xplane.pb"))
          = Ok (Some host,
                Some (if use_hlo tool then "hlo_proto" else "xplane"))).
  unfold _parse_filename.
  destruct (use_hlo tool);
    (rewrite fullmatch_host_extension;
      [done | done | apply elem_of_extensions; auto]).
Qed.

Lemma parse_make_filename_family_witness :
  make_filename "host1" "memory_viewer" ≫= _parse_filename
  = Ok (Some "host1", Some "hlo_proto")
  ∧ make_filename "host1" "trace_viewer@" ≫= _parse_filename
    = Ok (Some "host1", Some "xplane").
Proof.
  split.
  - apply (parse_make_filename_family "host1" "memory_viewer");
      [discriminate | vm_compute; reflexivity | left; vm_compute; reflexivity].
  - apply (parse_make_filename_family "host1" "trace_viewer@");
      [discriminate | vm_compute; reflexivity | right; vm_compute; reflexivity].
Defined.

(** X3: with an empty host the filename is the bare extension, and
    decoding it gives no host at all (not the empty one). *)
Theorem parse_make_filename_no_host (tool : string) :
  use_hlo tool = true ∨ use_xplane tool = true →
  make_filename "" tool ≫= _parse_filename
  = Ok (None, Some (tool_family tool)).
Proof.
  intros Hfam. rewrite make_filename_family by done.
  unfold tool_family. by destruct (use_hlo tool).
Qed.

Lemma parse_make_filename_no_host_witness :
  make_filename "" "graph_viewer" ≫= _parse_filename
  = Ok (None, Some "hlo_proto").
Proof.
  apply (parse_make_filename_no_host "graph_viewer").
  left. vm_compute. reflexivity.
Defined.

Lemma extension_to_tool_lookup (ext : string) :
  ext ∈ extensions →
  getitem _EXTENSION_TO_TOOL ext
  = Ok (if bool_decide (ext = "xplane.pb") then "xplane" else "hlo_proto").
Proof. by intros [->| ->]%elem_of_extensions. Qed.

(** What a successful match decodes to. *)
Lemma parse_filename_cases (filename : string) :
  match _parse_filename filename with
  | Ok (host, Some tool) =>
      ∃ ext, ext ∈ extensions
             ∧ tool = (if bool_decide (ext = "xplane.pb")
                       then "xplane" else "hlo_proto")
             ∧ match host with
               | Some h => filename = h +:+ "." +:+ ext
                           ∧ matches_dot_star h = true
               | None => filename = ext
               end
  | Ok (host, None) => host = Some filename
  | Raise _ => False
  end.
Proof.
  unfold _parse_filename. pose proof (fullmatch_cases filename) as H.
  destruct (_FILENAME_RE_fullmatch filename) as [[g1 g2]|]; [|done].
  assert (g2 ∈ extensions) as Hext by (destruct g1; naive_solver).
  rewrite extension_to_tool_lookup by done. simpl.
  exists g2. split; [done|]. split; [done|]. destruct g1; naive_solver.
Qed.

(** X4: decoding never raises and never names an individual tool: the tool
    is absent, and the host is then the whole filename, or it is one of
    the two family markers, and the filename then carries the extension of
    that family. *)
Theorem parse_filename_shape (filename : string) :
  ∃ host tool,
    _parse_filename filename = Ok (host, tool)
    ∧ (tool = None ∧ host = Some filename
       ∨ tool = Some "xplane" ∧ has_extension filename "xplane.pb"
       ∨ tool = Some "hlo_proto" ∧ has_extension filename "hlo_proto.pb").
Proof.
  pose proof (parse_filename_cases filename) as H.
  destruct (_parse_filename filename) as [[host [tool|]]|]; [| |done].
  - exists host, (Some tool). split; [done|]. right.
    destruct H as (ext & [->| ->]%elem_of_extensions & -> & Hhost).
    + left. split; [done|]. destruct host as [h|]; [right|left];
        naive_solver.
    + right. split; [done|]. destruct host as [h|]; [right|left];
        naive_solver.
  - exists host, None. auto.
Qed.

(** X5: encoding what a filename decodes to gives the filename back, when
    the decoded host is absent or non-empty. *)
Theorem make_parse_filename (filename : string) (host : option string)
    (tool : string) :
  _parse_filename filename = Ok (host, Some tool) →
  host ≠ Some "" →
  make_filename (default "" host) tool = Ok filename.
Proof.
  intros Hparse Hhost. pose proof (parse_filename_cases filename) as H.
  rewrite Hparse in H. destruct H as (ext & Hext & -> & Hfile).
  unfold make_filename.
  assert (truthy (Some (default "" host)) = truthy host) as ->
    by (by destruct host).
  destruct host as [[|c h]|]; [done| |].
  - destruct Hfile as [-> _]. rewrite <- string_app_assoc.
    by apply elem_of_extensions in Hext as [->| ->].
  - subst filename. by apply elem_of_extensions in Hext as [->| ->].
Qed.

Lemma make_parse_filename_witness :
  make_filename "worker.0" "hlo_proto" = Ok "worker.0.hlo_proto.pb".
Proof.
  apply (make_parse_filename "worker.0.hlo_proto.pb" (Some "worker.0")).
  - vm_compute. reflexivity.
  - discriminate.
Defined.

(** X6: a filename that ends with a dot and a catalog extension is still
    decoded as unrecognised (the whole filename as host, no tool) when
    what precedes the dot holds a newline. *)
Theorem parse_filename_newline_host (h ext : string) :
  ext ∈ extensions → matches_dot_star h = false →
  _parse_filename (h +:+ "." +:+ ext) = Ok (Some (h +:+ "." +:+ ext), None).
Proof.
  intros Hext Hdot.
  pose proof (parse_filename_cases (h +:+ "." +:+ ext)) as H.
  destruct (_parse_filename (h +:+ "." +:+ ext)) as [[host [tool|]]|];
    [exfalso| |done].
  - destruct H as (ext' & Hext' & _ & Hhost).
    destruct host as [h'|].
    + destruct Hhost as [Heq Hdot'].
      assert (h = h') as <-; [|congruence].
      apply elem_of_extensions in Hext as [->| ->];
        apply elem_of_extensions in Hext' as [->| ->];
        try (by apply string_app_inv_r in Heq);
        apply string_app_eq_suffix in Heq as [[c Hc]|[c Hc]]; exfalso;
        (eapply strip_suffix_None; [|exact Hc]); vm_compute; reflexivity.
    + apply elem_of_extensions in Hext as [->| ->];
        apply elem_of_extensions in Hext' as [->| ->];
        symmetry in Hhost;
        (eapply strip_suffix_None; [|exact Hhost]); vm_compute; reflexivity.
  - by rewrite H.
Qed.

Lemma parse_filename_newline_host_witness :
  _parse_filename (two_line_host +:+ "." +:+ "xplane.pb")
  = Ok (Some (two_line_host +:+ "." +:+ "xplane.pb"), None).
Proof.
  apply (parse_filename_newline_host two_line_host "xplane.pb").
  - apply elem_of_extensions. by left.
  - vm_compute. reflexivity.
Defined.

(** ** The host resolver *)

Lemma parse_filename_unrecognized_aux (filename : string) :
  (∀ ext, ext ∈ extensions → ¬ has_extension filename ext) →
  _parse_filename filename = Ok (Some filename, None).
Proof.
  intros Hnone. pose proof (parse_filename_cases filename) as H.
  destruct (_parse_filename filename) as [[host [tool|]]|]; [exfalso| |done].
  - destruct H as (ext & Hext & _ & Hhost). apply (Hnone ext Hext).
    destruct host as [h|]; [right | by left]. exists h. tauto.
  - by rewrite H.
Qed.

(** The members of the host list, in terms of the decoded hosts. *)
Lemma filenames_to_hosts_members (filenames : list string) (tool : string) :
  ∃ hosts result,
    _get_hosts filenames = Ok hosts
    ∧ (∀ h, h ∈ hosts ↔ decoded_host filenames h)
    ∧ filenames_to_hosts filenames tool = Ok result
    ∧ ∀ h, h ∈ result
           ↔ if bool_decide (1 < size hosts) then
               if bool_decide (tool ∈ XPLANE_TOOLS_ALL_HOSTS_ONLY)
               then h = ALL_HOSTS
               else if bool_decide (tool ∈ XPLANE_TOOLS_ALL_HOSTS_SUPPORTED)
               then h = ALL_HOSTS ∨ h ∈ hosts
               else h ∈ hosts
             else h ∈ hosts.
Proof.
  destruct (get_hosts_spec filenames) as (hosts & Hget & Hhosts).
  exists hosts. unfold filenames_to_hosts. rewrite Hget. simpl.
  destruct (sorted_elements hosts) as (_ & _ & Hm1).
  destruct (sorted_elements ({[ALL_HOSTS]} ∪ hosts)) as (_ & _ & Hm2).
  repeat case_bool_decide; eexists; (split; [done|]); (split; [done|]);
    (split; [reflexivity|]); try done.
  - intros h. change (sorted [ALL_HOSTS]) with [ALL_HOSTS]. set_solver.
  - intros h. rewrite Hm2. set_solver.
Qed.

(** X7: the host list depends on which filenames are listed, not on their
    order or on repetitions. *)
Theorem filenames_to_hosts_same_files (filenames1 filenames2 : list string)
    (tool : string) :
  (∀ name, name ∈ filenames1 ↔ name ∈ filenames2) →
  filenames_to_hosts filenames1 tool = filenames_to_hosts filenames2 tool.
Proof.
  intros Hsame.
  destruct (get_hosts_spec filenames1) as (hosts1 & Hget1 & Hhosts1).
  destruct (get_hosts_spec filenames2) as (hosts2 & Hget2 & Hhosts2).
  assert (hosts1 = hosts2) as Heq.
  { apply set_eq. intros h. rewrite Hhosts1, Hhosts2. unfold decoded_host.
    split; intros (? & name & t & Hin & ?); (split; [done|]);
      exists name, t; (split; [by apply Hsame | done]). }
  unfold filenames_to_hosts. by rewrite Hget1, Hget2, Heq.
Qed.

Lemma filenames_to_hosts_same_files_witness :
  filenames_to_hosts ["b.xplane.pb"; "a.xplane.pb"; "b.xplane.pb"] "op_profile"
  = filenames_to_hosts ["a.xplane.pb"; "b.xplane.pb"] "op_profile".
Proof.
  apply filenames_to_hosts_same_files. intros name. set_solver.
Defined.

(** X8: a file of the listing that has no catalog extension is listed as a
    host under its whole name, for every tool that is not all-hosts-only. *)
Theorem filenames_to_hosts_stray_file (filenames : list string)
    (tool name : string) :
  name ∈ filenames → name ≠ "" →
  (∀ ext, ext ∈ extensions → ¬ has_extension name ext) →
  tool ∉ XPLANE_TOOLS_ALL_HOSTS_ONLY →
  ∃ result, filenames_to_hosts filenames tool = Ok result ∧ name ∈ result.
Proof.
  intros Hin Hne Hstray Htool.
  destruct (filenames_to_hosts_members filenames tool)
    as (hosts & result & _ & Hhosts & Hres & Hmem).
  exists result. split; [done|]. apply Hmem.
  assert (name ∈ hosts) as Hhost.
  { apply Hhosts. split; [done|]. exists name, None. split; [done|].
    by apply parse_filename_unrecognized_aux. }
  repeat case_bool_decide; (done || auto).
Qed.

Lemma filenames_to_hosts_stray_file_witness :
  ∃ result,
    filenames_to_hosts ["host1.xplane.pb"; "notes.txt"] "trace_viewer"
    = Ok result
    ∧ "notes.txt" ∈ result.
Proof.
  apply filenames_to_hosts_stray_file.
  - set_solver.
  - discriminate.
  - intros ext Hext [Heq|[h Heq]];
      apply elem_of_extensions in Hext as [->| ->]; try discriminate Heq;
      (eapply strip_suffix_None; [|exact Heq]); vm_compute; reflexivity.
  - unfold XPLANE_TOOLS_ALL_HOSTS_ONLY. set_solver.
Defined.

(** X9: the host list is empty exactly when no filename decodes to a
    non-empty host, whatever the tool. *)
Theorem filenames_to_hosts_empty (filenames : list string) (tool : string) :
  filenames_to_hosts filenames tool = Ok []
  ↔ ∀ h, ¬ decoded_host filenames h.
Proof.
  destruct (filenames_to_hosts_members filenames tool)
    as (hosts & result & _ & Hhosts & Hres & Hmem).
  rewrite Hres. split.
  - intros [= ->] h Hh. apply Hhosts in Hh.
    pose proof (Hmem h) as Hmem1. pose proof (Hmem ALL_HOSTS) as Hmem2.
    rewrite elem_of_nil in Hmem1, Hmem2.
    repeat case_bool_decide; tauto.
  - intros Hnone. assert (hosts = ∅) as ->.
    { apply set_eq. intros h. rewrite Hhosts. set_solver. }
    f_equal. apply elem_of_nil_inv. intros h Hh. apply Hmem in Hh.
    rewrite bool_decide_false in Hh by (rewrite size_empty; lia).
    set_solver.
Qed.

(** ** The tool resolver *)

Lemma xplane_paths_nil (dir : string) (filenames : list string) :
  (∀ name, name ∈ filenames → decodes_to_xplane name = false) →
  xplane_paths dir filenames = [].
Proof.
  intros Hnone. unfold xplane_paths.
  induction filenames as [|name filenames IH]; [done|].
  simpl. rewrite (Hnone name) by left. apply IH.
  intros n Hn. apply Hnone. by right.
Qed.

(** What [_get_tools] returns, by the xplane paths and the run directory. *)
Lemma get_tools_cases
    (xspace_to_tool_names : list string → result (list string))
    (filenames : list string) (dir : string) :
  _get_tools xspace_to_tool_names filenames dir
  = if bool_decide (xplane_paths dir filenames = []) then Ok ∅
    else if bool_decide (dir = "") then Ok (add_xplane_tools ∅ ∅)
    else match xspace_to_tool_names (xplane_paths dir filenames) with
         | Ok names => Ok (list_to_set names)
         | Raise AttributeError => Ok ∅
         | Raise e => Raise e
         end.
Proof.
  case_bool_decide as Hx.
  - unfold _get_tools. rewrite get_tools_loop_spec, Hx.
    by destruct dir.
  - case_bool_decide as Hdir.
    + subst dir. by apply get_tools_without_run_dir.
    + by apply get_tools_with_run_dir.
Qed.

(** X10: without an xplane file among the filenames no tool is resolved,
    whatever the run directory, and the conversion collaborator has no
    part in it: the result is empty even if the collaborator would fail. *)
Theorem get_tools_without_xplane
    (xspace_to_tool_names : list string → result (list string))
    (filenames : list string) (profile_run_dir : string) :
  (∀ name, name ∈ filenames → decodes_to_xplane name = false) →
  _get_tools xspace_to_tool_names filenames profile_run_dir = Ok ∅
  ∧ _get_active_tools xspace_to_tool_names filenames profile_run_dir = Ok [].
Proof.
  intros Hnone.
  assert (_get_tools xspace_to_tool_names filenames profile_run_dir = Ok ∅)
    as Htools.
  { rewrite get_tools_cases, bool_decide_true; [done|].
    by apply xplane_paths_nil. }
  split; [done|]. unfold _get_active_tools. by rewrite Htools.
Qed.

Lemma get_tools_without_xplane_witness :
  _get_active_tools (collaborator_raising (OtherError "ValueError"))
    ["module1.hlo_proto.pb"; "notes.txt"] run1_dir = Ok [].
Proof.
  apply get_tools_without_xplane.
  intros name Hin. apply list_elem_of_In in Hin. simpl in Hin.
  destruct Hin as [<-|[<-|[]]]; vm_compute; reflexivity.
Defined.

(** X11: with an xplane file and no run directory, the active tools are
    the whole catalog, overview_page first, the others in ascending order,
    and the streaming trace viewer in place of the plain one; the
    collaborator has no part in it. *)
Theorem get_active_tools_without_run_dir
    (xspace_to_tool_names : list string → result (list string))
    (filenames : list string) :
  (∃ name, name ∈ filenames ∧ decodes_to_xplane name = true) →
  _get_active_tools xspace_to_tool_names filenames ""
  = Ok [ "overview_page"; "framework_op_stats"; "graph_viewer"; "hlo_stats";
         "inference_profile"; "input_pipeline_analyzer"; "kernel_stats";
         "megascale_stats"; "memory_profile"; "memory_viewer"; "op_profile";
         "pod_viewer"; "roofline_model"; "trace_viewer@" ].
Proof.
  intros Hx. apply (xplane_paths_nonempty "") in Hx.
  unfold _get_active_tools.
  rewrite (get_tools_without_run_dir xspace_to_tool_names filenames Hx).
  vm_compute. reflexivity.
Qed.

Lemma get_active_tools_without_run_dir_witness :
  ∃ tools,
    _get_active_tools (collaborator_raising AttributeError)
      ["host1.xplane.pb"] "" = Ok tools
    ∧ length tools = 14.
Proof.
  eexists. split.
  - apply get_active_tools_without_run_dir.
    exists "host1.xplane.pb". split; [left | vm_compute; reflexivity].
  - reflexivity.
Defined.

(** X12: resolving the tools fails only when the conversion collaborator
    is consulted (an xplane file and a run directory) and fails with
    something else than AttributeError; the failure is then the
    collaborator's. *)
Theorem get_active_tools_failure
    (xspace_to_tool_names : list string → result (list string))
    (filenames : list string) (profile_run_dir : string) (e : exn) :
  _get_active_tools xspace_to_tool_names filenames profile_run_dir = Raise e →
  profile_run_dir ≠ ""
  ∧ xplane_paths profile_run_dir filenames ≠ []
  ∧ xspace_to_tool_names (xplane_paths profile_run_dir filenames) = Raise e
  ∧ e ≠ AttributeError.
Proof.
  unfold _get_active_tools. rewrite get_tools_cases.
  case_bool_decide as Hx; [done|].
  case_bool_decide as Hdir; [done|].
  destruct (xspace_to_tool_names _) as [names|e']; [done|].
  destruct e'; try done; by intros [= <-].
Qed.

Lemma get_active_tools_failure_witness :
  collaborator_raising (OtherError "ValueError")
    (xplane_paths run1_dir ["host1.xplane.pb"])
  = Raise (OtherError "ValueError").
Proof.
  apply (get_active_tools_failure
           (collaborator_raising (OtherError "ValueError"))
           ["host1.xplane.pb"] run1_dir (OtherError "ValueError")).
  vm_compute. reflexivity.
Defined.

(** ** The tools of a run and the run directory *)

(** X13: enumerating the tools of a run fails with KeyError, when the
    run is not in the cache; with the OSError of the listing, when the
    cached directory exists and cannot be listed (the listing is read
    after the [try] that holds the call of [iterdir]); or with a failure
    of the conversion collaborator that is not an AttributeError.  A
    cached path that is not a directory gives the empty list. *)
Theorem generate_tools_of_run_outcomes
    (xspace_to_tool_names : list string → result (list string))
    (is_dir : string → bool) (iterdir : string → option (list string))
    (_run_to_profile_run_dir : gmap string string) (run : string) :
  (∀ e,
     generate_tools_of_run xspace_to_tool_names is_dir iterdir
       _run_to_profile_run_dir run = Raise e →
     _run_to_profile_run_dir !! run = None ∧ e = KeyError run
     ∨ ∃ dir,
         _run_to_profile_run_dir !! run = Some dir ∧ is_dir dir = true
         ∧ (iterdir dir = None ∧ e = OSError
            ∨ ∃ xplane_filenames,
                xspace_to_tool_names xplane_filenames = Raise e
                ∧ e ≠ AttributeError))
  ∧ (∀ dir,
       _run_to_profile_run_dir !! run = Some dir → is_dir dir = false →
       generate_tools_of_run xspace_to_tool_names is_dir iterdir
         _run_to_profile_run_dir run = Ok [])
  ∧ (∀ dir,
       _run_to_profile_run_dir !! run = Some dir → is_dir dir = true →
       iterdir dir = None →
       generate_tools_of_run xspace_to_tool_names is_dir iterdir
         _run_to_profile_run_dir run = Raise OSError).
Proof.
  unfold generate_tools_of_run, getitem, iterdir_call. split_and!.
  - intros e. destruct (_run_to_profile_run_dir !! run) as [dir|] eqn:Hrun;
      simpl; [|intros [= <-]; by left].
    destruct (is_dir dir) eqn:Hdir; [|done].
    destruct (iterdir dir) as [names|] eqn:Hlist; simpl.
    + set (filenames := os_path_basename <$> names).
      unfold _get_active_tools. rewrite get_tools_cases.
      case_bool_decide as Hx; [done|].
      case_bool_decide as Hnodir; [done|].
      destruct (xspace_to_tool_names (xplane_paths dir filenames))
        as [tools|e'] eqn:Hcoll; [done|].
      intros Hraise. right. exists dir. split_and!; try done. right.
      exists (xplane_paths dir filenames).
      rewrite Hcoll. destruct e'; try done; by injection Hraise as <-.
    + intros [= <-]. right. exists dir. split_and!; try done. by left.
  - intros dir -> Hnodir. simpl. by rewrite Hnodir.
  - intros dir -> Hdir Hlist. simpl. by rewrite Hdir, Hlist.
Qed.

Lemma generate_tools_of_run_outcomes_witness :
  generate_tools_of_run (collaborator_returning ["op_profile"]) tree_is_dir
    tree_iterdir {[ "run1" := run1_dir ]} "run1" = Ok []
  ∧ generate_tools_of_run (collaborator_returning ["op_profile"]) tree_is_dir
      tree_iterdir_root_fails {[ "run1" := "/logs" ]} "run1" = Raise OSError.
Proof.
  split.
  - apply (proj1 (proj2 (generate_tools_of_run_outcomes
                    (collaborator_returning ["op_profile"]) tree_is_dir
                    tree_iterdir {[ "run1" := run1_dir ]} "run1")) run1_dir).
    + vm_compute. reflexivity.
    + vm_compute. reflexivity.
  - apply (proj2 (proj2 (generate_tools_of_run_outcomes
                    (collaborator_returning ["op_profile"]) tree_is_dir
                    tree_iterdir_root_fails {[ "run1" := "/logs" ]} "run1"))
             "/logs").
    + vm_compute. reflexivity.
    + vm_compute. reflexivity.
    + vm_compute. reflexivity.
Defined.

Lemma rstrip_app_sep (s : string) : rstrip sep (s +:+ "/") = rstrip sep s.
Proof.
  induction s as [|c s IH]; [done|].
  rewrite string_app_cons. simpl. by rewrite IH.
Qed.

(** X14: separators at the end of a frontend run name are ignored by
    [_run_dir]: the result, path or error, is that of the name without
    them. *)
Theorem run_dir_trailing_separator (is_dir : string → bool)
    (PluginDirectory : string → string → string) (logdir run : string) :
  _run_dir is_dir PluginDirectory logdir (run +:+ "/")
  = _run_dir is_dir PluginDirectory logdir run
  ∧ _run_dir is_dir PluginDirectory logdir (rstrip sep run)
    = _run_dir is_dir PluginDirectory logdir run.
Proof.
  assert (∀ s, rstrip sep (rstrip sep s) = rstrip sep s) as Hidem.
  { induction s as [|c s IH]; [done|]. simpl.
    destruct (rstrip sep s) as [|d r] eqn:Hr.
    - destruct (Ascii.eqb c sep) eqn:Hc; [done|]. simpl. by rewrite Hc.
    - simpl. simpl in IH. by rewrite IH. }
  unfold _run_dir. by rewrite rstrip_app_sep, Hidem.
Qed.

(** ** The directory walk *)

Lemma walk_nil (is_dir : string → bool)
    (iterdir : string → option (list string)) (fuel : nat) :
  walk is_dir iterdir fuel [] = ([], Exhausted).
Proof. by destruct fuel. Qed.

Lemma walk_more_fuel (is_dir : string → bool)
    (iterdir : string → option (list string)) (fuel k : nat)
    (q : list string) :
  (walk is_dir iterdir fuel q).1 `prefix_of` (walk is_dir iterdir (fuel + k) q).1
  ∧ length (walk is_dir iterdir fuel q).1 ≤ fuel
  ∧ ((walk is_dir iterdir fuel q).2 = Exhausted →
     walk is_dir iterdir (fuel + k) q = walk is_dir iterdir fuel q)
  ∧ ((walk is_dir iterdir fuel q).2 = Suspended →
     length (walk is_dir iterdir fuel q).1 = fuel).
Proof.
  revert q. induction fuel as [|fuel IH]; intros [|d q].
  - rewrite !walk_nil. simpl.
    split_and!; try done; try apply prefix_nil; try lia.
  - simpl. split_and!; try done; try apply prefix_nil; try lia.
  - rewrite !walk_nil. simpl.
    split_and!; try done; try apply prefix_nil; try lia.
  - change (S fuel + k) with (S (fuel + k)). rewrite !walk_cons. simpl.
    destruct (IH (q ++ listed_subdirectories is_dir iterdir d))
      as (Hpre & Hlen & Hex & Hsus).
    split_and!.
    + by apply prefix_cons.
    + lia.
    + intros Hend. by rewrite (Hex Hend).
    + intros Hend. by rewrite (Hsus Hend).
Qed.

(** X15: the walk yields nothing but directories reached from the root
    through successful listings. *)
Theorem find_all_subdirectories_sound (is_dir : string → bool)
    (iterdir : string → option (list string)) (fuel : nat)
    (root d : string) :
  d ∈ (find_all_subdirectories is_dir iterdir fuel root).1 →
  rtc (child is_dir iterdir) root d ∧ is_dir d = true.
Proof.
  unfold find_all_subdirectories.
  destruct (is_dir root) eqn:Hroot; simpl; [|by intros ?%elem_of_nil].
  intros (x & Hx & Hreach)%walk_yields_reachable.
  apply list_elem_of_singleton in Hx as ->. split; [done|].
  induction Hreach as [|x y z Hchild _ IH]; [done|].
  apply IH. by destruct Hchild as (? & _ & _ & ?).
Qed.

Lemma find_all_subdirectories_sound_witness :
  rtc (child tree_is_dir tree_iterdir) "/logs" "/logs/a/x"
  ∧ tree_is_dir "/logs/a/x" = true.
Proof.
  apply (find_all_subdirectories_sound tree_is_dir tree_iterdir 10).
  vm_compute. set_solver.
Defined.

(** X16: asking the walk for more rounds only extends what it yielded: the
    directories of [fuel] rounds are a prefix of those of more rounds, at
    most one per round; a walk that is suspended has yielded one directory
    per round, and a walk that is exhausted yields nothing more, however
    many rounds follow. *)
Theorem find_all_subdirectories_more_fuel (is_dir : string → bool)
    (iterdir : string → option (list string)) (fuel k : nat) (root : string) :
  let short := find_all_subdirectories is_dir iterdir fuel root in
  let long := find_all_subdirectories is_dir iterdir (fuel + k) root in
  short.1 `prefix_of` long.1
  ∧ length short.1 ≤ fuel
  ∧ (short.2 = Exhausted → long = short)
  ∧ (short.2 = Suspended → length short.1 = fuel).
Proof.
  unfold find_all_subdirectories. destruct (is_dir root); simpl.
  - apply walk_more_fuel.
  - split_and!; try done. lia.
Qed.

Lemma find_all_subdirectories_more_fuel_witness :
  find_all_subdirectories tree_is_dir tree_iterdir (5 + 7) "/logs"
  = find_all_subdirectories tree_is_dir tree_iterdir 5 "/logs".
Proof.
  apply (find_all_subdirectories_more_fuel tree_is_dir tree_iterdir 5 7 "/logs").
  vm_compute. reflexivity.
Defined.

(** ** The check of the xplane asset paths *)

(** X17: [validate_xplane_asset_paths] returns exactly when every path
    that ends with the xplane extension exists; the other paths are not
    looked at. *)
Theorem validate_xplane_asset_paths_validated (path_exists : string → bool)
    (asset_paths : list string) :
  validate_xplane_asset_paths path_exists asset_paths = Validated
  ↔ ∀ p, p ∈ asset_paths → endswith p "xplane.pb" = true →
         path_exists p = true.
Proof.
  induction asset_paths as [|p asset_paths IH]; simpl.
  - split; [|done]. by intros _ p ?%elem_of_nil.
  - destruct (endswith p "xplane.pb") eqn:Hend;
      [destruct (path_exists p) eqn:Hex|]; simpl.
    + rewrite IH. split.
      * intros H q [->|Hq]%elem_of_cons; auto.
      * intros H q Hq. apply H. by right.
    + split; [done|]. intros H.
      rewrite (H p) in Hex; [done | left | done].
    + rewrite IH. split.
      * intros H q [->|Hq]%elem_of_cons; [congruence | auto].
      * intros H q Hq. apply H. by right.
Qed.

(** X18: when it raises, the message names the first path of the list that
    ends with the xplane extension and does not exist. *)
Theorem validate_xplane_asset_paths_first_missing
    (path_exists : string → bool) (asset_paths : list string) (msg : string) :
  validate_xplane_asset_paths path_exists asset_paths = FileNotFoundError msg →
  ∃ before p after,
    asset_paths = before ++ p :: after
    ∧ msg = "Invalid asset path: " +:+ p
    ∧ endswith p "xplane.pb" = true ∧ path_exists p = false
    ∧ validate_xplane_asset_paths path_exists before = Validated.
Proof.
  induction asset_paths as [|p asset_paths IH]; simpl; [done|].
  destruct (endswith p "xplane.pb" && negb (path_exists p)) eqn:Hbad.
  - intros [= <-]. exists [], p, asset_paths.
    apply andb_true_iff in Hbad as [Hend Hex].
    by apply negb_true_iff in Hex.
  - intros (before & q & after & -> & -> & Hend & Hex & Hbefore)%IH.
    exists (p :: before), q, after. simpl. by rewrite Hbad.
Qed.

Lemma validate_xplane_asset_paths_first_missing_witness :
  ∃ before p after,
    [ "/r/notes.txt"; "/r/a.xplane.pb"; "/r/b.xplane.pb" ]
    = before ++ p :: after
    ∧ "Invalid asset path: /r/a.xplane.pb" = "Invalid asset path: " +:+ p
    ∧ endswith p "xplane.pb" = true ∧ (λ _ : string, false) p = false
    ∧ validate_xplane_asset_paths (λ _, false) before = Validated.
Proof.
  apply (validate_xplane_asset_paths_first_missing (λ _, false)
           [ "/r/notes.txt"; "/r/a.xplane.pb"; "/r/b.xplane.pb" ]).
  vm_compute. reflexivity.
Defined.

(** ** The hosts and the modules of a run *)

Lemma endswith_app (name suf : string) :
  endswith name suf = true ↔ ∃ h, name = h +:+ suf.
Proof.
  unfold endswith. rewrite bool_decide_eq_true. split.
  - intros [h Hh]. exists h. by apply strip_suffix_Some.
  - intros [h ->]. rewrite strip_suffix_app. by eexists.
Qed.

(** X19: the hosts of a run are read from what the glob yields for
    [*.xplane.pb], for every tool, module-derived or not.  When consuming
    the glob raises, [_run_host_impl] raises the same: the [try] holds
    only the creation of the generator.  Otherwise it returns hosts, each
    of which is the sentinel or is decoded from the name of a path that
    the glob yielded. *)
Theorem run_host_impl_reads_xplane_files
    (glob : string → string → result (list string))
    (run run_dir tool : string) :
  run_dir ≠ "" →
  match glob run_dir "*.xplane.pb" with
  | Ok paths =>
      ∃ hosts,
        _run_host_impl glob run run_dir tool = Ok hosts
        ∧ ∀ host, host ∈ hosts →
            hostname host = ALL_HOSTS
            ∨ ∃ path, path ∈ paths
                ∧ decoded_host [os_path_basename path] (hostname host)
  | Raise e => _run_host_impl glob run run_dir tool = Raise e
  end.
Proof.
  intros Hne. unfold _run_host_impl.
  rewrite truthy_nonempty by done. cbn [negb].
  change (try_except (Ok (Generator (glob run_dir "*.xplane.pb"))) is_OSError
            (λ _, Ok (PyList [])))
    with (Ok (Generator (glob run_dir "*.xplane.pb"))).
  cbn [mbind result_bind consume].
  destruct (glob run_dir "*.xplane.pb") as [paths|e]; [|done].
  cbn [mbind result_bind].
  set (filenames := os_path_basename <$> paths).
  destruct (filenames_to_hosts_members filenames tool)
    as (hosts & result & _ & Hhosts & -> & Hmem).
  cbn [mbind result_bind]. eexists. split; [done|].
  intros host (h & -> & Hh)%list_elem_of_fmap. simpl.
  apply Hmem in Hh.
  assert (h = ALL_HOSTS ∨ h ∈ hosts) as [?|Hin]
    by (repeat case_bool_decide; tauto); [by left|right].
  apply Hhosts in Hin as (Hnonempty & name & t & Hname & Hparse).
  subst filenames.
  apply list_elem_of_fmap in Hname as (path & -> & Hpath).
  exists path. split; [done|]. split; [done|].
  exists (os_path_basename path), t. split; [left | done].
Qed.

Lemma run_host_impl_reads_xplane_files_witness :
  ∃ hosts,
    _run_host_impl profile_glob "run1" run1_dir "memory_viewer" = Ok hosts
    ∧ ∀ host, host ∈ hosts →
        hostname host = ALL_HOSTS
        ∨ ∃ path,
            path ∈ [ run1_dir +:+ "/host1.xplane.pb";
                     run1_dir +:+ "/host2.xplane.pb" ]
            ∧ decoded_host [os_path_basename path] (hostname host).
Proof.
  apply (run_host_impl_reads_xplane_files profile_glob "run1" run1_dir
           "memory_viewer").
  discriminate.
Defined.

Lemma matches_dot_star_app (a b : string) :
  matches_dot_star (a +:+ b) = matches_dot_star a && matches_dot_star b.
Proof.
  induction a as [|c a IH]; [done|].
  rewrite string_app_cons. simpl. by rewrite IH, andb_assoc.
Qed.

Lemma parse_filename_module (name : string) :
  endswith name ".hlo_proto.pb" = true → matches_dot_star name = true →
  ∃ h, _parse_filename name = Ok (Some h, Some "hlo_proto")
       ∧ module_name name = if truthy (Some h) then Some h else None.
Proof.
  intros [h ->]%endswith_app Hdot. exists h.
  rewrite matches_dot_star_app in Hdot.
  apply andb_true_iff in Hdot as [Hdot _]. split.
  - unfold _parse_filename.
    change (h +:+ ".hlo_proto.pb") with (h +:+ "." +:+ "hlo_proto.pb").
    rewrite fullmatch_host_extension;
      [done | done | apply elem_of_extensions; auto].
  - unfold module_name. rewrite strip_suffix_app. by destruct h.
Qed.

Lemma module_list_loop_spec (filenames module_list : list string) :
  (∀ name, name ∈ filenames →
     endswith name ".hlo_proto.pb" = true ∧ matches_dot_star name = true) →
  module_list_loop filenames module_list
  = Ok (module_list ++ omap module_name filenames).
Proof.
  revert module_list.
  induction filenames as [|name filenames IH]; intros module_list Hall.
  - simpl. by rewrite app_nil_r.
  - destruct (Hall name) as [Hend Hdot]; [left|].
    destruct (parse_filename_module name Hend Hdot) as (h & Hparse & Hmod).
    simpl. rewrite Hparse, Hmod. simpl. rewrite IH.
    + destruct h; simpl; [done|]. by rewrite <- app_assoc.
    + intros n Hn. apply Hall. by right.
Qed.

(** X20: when the run resolves to a directory and the glob for
    [*.hlo_proto.pb] yields paths whose names end with that extension and
    hold no newline, the module list is the names of the modules, what
    precedes the extension, in the order of the glob and joined by commas;
    a file named just [.hlo_proto.pb] adds nothing. *)
Theorem hlo_module_list_impl_modules (is_dir : string → bool)
    (glob : string → string → result (list string))
    (PluginDirectory : string → string → string) (logdir run : string)
    (run_dir : string) (paths : list string) :
  _run_dir is_dir PluginDirectory logdir run = Ok run_dir →
  run_dir ≠ "" →
  glob run_dir "*.hlo_proto.pb" = Ok paths →
  (∀ path, path ∈ paths →
     endswith (os_path_basename path) ".hlo_proto.pb" = true
     ∧ matches_dot_star (os_path_basename path) = true) →
  hlo_module_list_impl is_dir glob PluginDirectory logdir run
  = Ok (String.concat "," (omap module_name (os_path_basename <$> paths))).
Proof.
  intros Hrun Hne Hglob Hnames. unfold hlo_module_list_impl.
  rewrite Hrun. cbn [mbind result_bind].
  rewrite truthy_nonempty by done. cbn [negb].
  change (try_except (Ok (Generator (glob run_dir "*.hlo_proto.pb")))
            is_OSError (λ _, Ok (PyList [])))
    with (Ok (Generator (glob run_dir "*.hlo_proto.pb"))).
  cbn [mbind result_bind consume]. rewrite Hglob. cbn [mbind result_bind].
  rewrite module_list_loop_spec; [done|].
  intros name (path & -> & Hpath)%list_elem_of_fmap. by apply Hnames.
Qed.

Lemma hlo_module_list_impl_modules_witness :
  hlo_module_list_impl profile_is_dir profile_glob plugins_directory
    "/logs" "run1" = Ok "module1,module2".
Proof.
  apply (hlo_module_list_impl_modules profile_is_dir profile_glob
           plugins_directory "/logs" "run1" run1_dir
           [ run1_dir +:+ "/module1.hlo_proto.pb";
             run1_dir +:+ "/module2.hlo_proto.pb" ]).
  - vm_compute. reflexivity.
  - discriminate.
  - vm_compute. reflexivity.
  - intros path Hin. apply list_elem_of_In in Hin. simpl in Hin.
    destruct Hin as [<-|[<-|[]]]; vm_compute; split; reflexivity.
Defined.

(** ** The discovery pass *)

Lemma dict_get_set {V} (d : list (string * V)) (k k' : string) (v : V) :
  dict_get (dict_set d k v) k'
  = if String.eqb k k' then Ok v else dict_get d k'.
Proof.
  induction d as [|[k1 v1] d IH]; simpl; [done|].
  destruct (String.eqb_spec k1 k) as [->|Hne]; simpl.
  - by destruct (String.eqb k k').
  - rewrite IH. destruct (String.eqb_spec k1 k') as [->|?]; [|done].
    by rewrite (proj2 (String.eqb_neq k k')) by done.
Qed.

Lemma dict_set_keys {V} (d : list (string * V)) (k k' : string) (v : V) :
  k' ∈ (dict_set d k v).*1 ↔ k' = k ∨ k' ∈ d.*1.
Proof.
  induction d as [|[k1 v1] d IH]; simpl; [set_solver|].
  destruct (String.eqb_spec k1 k) as [->|Hne]; simpl; set_solver.
Qed.

(** A dictionary comprehension [{k: f(k) for k in l}]: its keys are those
    of [l] and every lookup of a key gives [f k]. *)
Lemma dict_comprehension {V} (f : string → V) (l : list string)
    (d : list (string * V)) :
  (∀ k, k ∈ d.*1 → dict_get d k = Ok (f k)) →
  let d' := foldl (λ d k, dict_set d k (f k)) d l in
  (∀ k, k ∈ d'.*1 ↔ k ∈ d.*1 ∨ k ∈ l)
  ∧ (∀ k, k ∈ d'.*1 → dict_get d' k = Ok (f k)).
Proof.
  revert d. induction l as [|k0 l IH]; intros d Hd; simpl.
  - split; [set_solver | done].
  - destruct (IH (dict_set d k0 (f k0))) as [Hkeys Hget].
    + intros k Hk. rewrite dict_get_set.
      destruct (String.eqb_spec k0 k) as [->|Hne]; [done|].
      apply Hd. apply dict_set_keys in Hk as [->|?]; done.
    + split; [|done]. intros k. rewrite Hkeys, dict_set_keys. set_solver.
Qed.

(** When every container of [plugin_assets] has its directory in
    [tb_run_names_to_dirs], the loop raises nothing. *)
Lemma generate_runs_loop_fold (is_dir : string → bool)
    (PluginDirectory : string → string → string) (logdir : string)
    (tb_run_names_to_dirs : list (string * string))
    (plugin_assets : list (string * list string)) (st : runs_state) :
  (∀ t, t ∈ plugin_assets.*1 →
        dict_get tb_run_names_to_dirs t = Ok (_tb_run_directory logdir t)) →
  generate_runs_loop is_dir PluginDirectory tb_run_names_to_dirs
    plugin_assets st
  = Ok (generate_runs_fold is_dir PluginDirectory logdir plugin_assets st).
Proof.
  revert st. induction plugin_assets as [|[t ps] assets IH]; intros st Hget.
  - done.
  - simpl. rewrite (Hget t) by (simpl; left). simpl. apply IH.
    intros t' Ht'. apply Hget. simpl. by right.
Qed.

Lemma dict_set_elem_of {V} (d : list (string * V)) (k : string) (v : V)
    (kv : string * V) :
  kv ∈ dict_set d k v → kv = (k, v) ∨ kv ∈ d.
Proof.
  induction d as [|[k1 v1] d IH]; simpl; [set_solver|].
  destruct (String.eqb_spec k1 k) as [->|Hne]; set_solver.
Qed.

Lemma dict_comprehension_values {V} (f : string → V) (l : list string)
    (d : list (string * V)) (kv : string * V) :
  (∀ kv, kv ∈ d → kv.2 = f kv.1) →
  kv ∈ foldl (λ d k, dict_set d k (f k)) d l →
  kv.2 = f kv.1 ∧ (kv ∈ d ∨ kv.1 ∈ l).
Proof.
  revert d. induction l as [|k0 l IH]; intros d Hd; simpl.
  - intros Hkv. split; [by apply Hd | by left].
  - intros Hkv. apply IH in Hkv as [Hval Hkey].
    + split; [done|]. destruct Hkey as [Hin|?]; [|right; by right].
      apply dict_set_elem_of in Hin as [->|?]; [right; left | by left].
    + intros kv' [->|?]%dict_set_elem_of; [done | by apply Hd].
Qed.

Section discovery_properties.
Variable is_dir : string → bool.
Variable PluginDirectory : string → string → string.
Variable ListAssets : string → string → list string.
Variable logdir : string.

(** The items of [plugin_assets]: the containers of [tb_runs], each with
    the assets listed beneath its directory. *)
Lemma plugin_assets_elem_of (runs : list string) (plugin_name : string)
    (item : string * list string) :
  item ∈ _plugin_assets ListAssets logdir runs plugin_name →
  item.1 ∈ runs
  ∧ item.2 = ListAssets (_tb_run_directory logdir item.1) plugin_name.
Proof.
  unfold _plugin_assets. intros Hitem.
  destruct (dict_comprehension_values
              (λ run, ListAssets (_tb_run_directory logdir run) plugin_name)
              runs [] item) as [Hval [Hin|Hin]]; try done.
  - by intros ? ?%elem_of_nil.
  - by apply elem_of_nil in Hin.
Qed.

(** [generate_runs_from] raises nothing: it is the fold over the plugin
    assets of the containers. *)
Lemma generate_runs_from_fold (tb_runs : list string)
    (cache : gmap string string) :
  ∃ plugin_assets,
    (∀ item, item ∈ plugin_assets →
       item.1 ∈ tb_runs
       ∧ item.2 = ListAssets (_tb_run_directory logdir item.1) PLUGIN_NAME)
    ∧ ∀ cache,
        generate_runs_from is_dir PluginDirectory ListAssets logdir tb_runs
          cache
        = let st := generate_runs_fold is_dir PluginDirectory logdir
                      plugin_assets (cache, ∅, []) in
          Ok (st.2, st.1.1).
Proof.
  unfold generate_runs_from.
  set (dirs := foldl (λ d run, dict_set d run (_tb_run_directory logdir run))
                 [] tb_runs).
  destruct (dict_comprehension (_tb_run_directory logdir) tb_runs [])
    as [Hkeys Hget]; [by intros ? ?%elem_of_nil|].
  fold dirs in Hkeys, Hget.
  exists (_plugin_assets ListAssets logdir dirs.*1 PLUGIN_NAME). split.
  - intros item [Hin Hval]%plugin_assets_elem_of. split; [|done].
    apply Hkeys in Hin as [?%elem_of_nil|?]; done.
  - intros cache'. rewrite (generate_runs_loop_fold _ _ logdir).
    + simpl. by destruct (generate_runs_fold _ _ _ _ _) as [[??]?].
    + intros t (item & -> & Hitem)%list_elem_of_fmap.
      apply Hget. by apply plugin_assets_elem_of in Hitem as [? _].
Qed.

(** A property of the state that every step of the loop keeps holds at
    the end. *)
Lemma generate_runs_fold_ind (Inv : runs_state → Prop)
    (plugin_assets : list (string * list string)) (st : runs_state) :
  (∀ item p st, item ∈ plugin_assets → p ∈ item.2 → Inv st →
     Inv (generate_runs_profile_run is_dir item.1
            (PluginDirectory (_tb_run_directory logdir item.1) PLUGIN_NAME)
            st p)) →
  Inv st →
  Inv (generate_runs_fold is_dir PluginDirectory logdir plugin_assets st).
Proof.
  unfold generate_runs_fold. revert st.
  induction plugin_assets as [|item assets IH]; intros st Hstep Hst; [done|].
  simpl. apply IH.
  - intros item' p st' Hin. apply Hstep. by right.
  - assert (∀ ps st, (∀ p, p ∈ ps → p ∈ item.2) → Inv st →
              Inv (foldl (generate_runs_profile_run is_dir item.1
                            (PluginDirectory
                               (_tb_run_directory logdir item.1) PLUGIN_NAME))
                     st ps)) as Hinner.
    { induction ps as [|p ps IHps]; intros st' Hsub Hst'; [done|].
      simpl. apply IHps; [intros q Hq; apply Hsub; by right|].
      apply Hstep; [left | apply Hsub; left | done]. }
    by apply Hinner.
Qed.

(** X21: the discovery pass raises nothing; it yields every frontend run
    name once; every name it yields is a key of the cache afterwards, with
    a directory that exists; the keys of the cache before the pass are
    still keys after it, and every value of the cache is an old one or an
    existing directory. *)
Theorem generate_runs_from_cache (tb_runs : list string)
    (cache : gmap string string) :
  ∃ yielded cache',
    generate_runs_from is_dir PluginDirectory ListAssets logdir tb_runs cache
    = Ok (yielded, cache')
    ∧ NoDup yielded
    ∧ (∀ run, run ∈ yielded →
         ∃ dir, cache' !! run = Some dir ∧ is_dir dir = true)
    ∧ (∀ run, is_Some (cache !! run) → is_Some (cache' !! run))
    ∧ (∀ run dir, cache' !! run = Some dir →
         cache !! run = Some dir ∨ is_dir dir = true).
Proof.
  destruct (generate_runs_from_fold tb_runs cache) as (assets & _ & Hfold).
  rewrite Hfold. clear Hfold.
  set (Inv := λ st : runs_state,
         NoDup st.2
         ∧ (∀ run, run ∈ st.2 ↔ run ∈ st.1.2)
         ∧ (∀ run, run ∈ st.2 →
              ∃ dir, st.1.1 !! run = Some dir ∧ is_dir dir = true)
         ∧ (∀ run, is_Some (cache !! run) → is_Some (st.1.1 !! run))
         ∧ (∀ run dir, st.1.1 !! run = Some dir →
              cache !! run = Some dir ∨ is_dir dir = true)).
  assert (Inv (generate_runs_fold is_dir PluginDirectory logdir assets
                 (cache, ∅, []))) as (Hnodup & _ & Hcached & Hkeys & Hvals).
  { apply generate_runs_fold_ind.
    - intros item p [[c v] y] _ _ (Hnd & Hv & Hc & Hk & Hval).
      unfold generate_runs_profile_run, Inv in *. simpl in *.
      set (r := if bool_decide (item.1 = ".") then rstrip sep p
                else os_path_join item.1 (rstrip sep p)).
      set (d := os_path_join _ (rstrip sep p)).
      destruct (is_dir d) eqn:Hd; [|done].
      assert (∀ run, is_Some (cache !! run) → is_Some (<[r:=d]> c !! run))
        as Hk'.
      { intros run Hrun. destruct (decide (r = run)) as [->|?].
        - rewrite lookup_insert_eq. by eexists.
        - rewrite lookup_insert_ne by done. by apply Hk. }
      assert (∀ run dir, <[r:=d]> c !! run = Some dir →
                cache !! run = Some dir ∨ is_dir dir = true) as Hval'.
      { intros run dir. destruct (decide (r = run)) as [->|?].
        - rewrite lookup_insert_eq. intros [= <-]. by right.
        - rewrite lookup_insert_ne by done. apply Hval. }
      assert (∀ run, run = r ∨ run ∈ y →
                ∃ dir, <[r:=d]> c !! run = Some dir ∧ is_dir dir = true)
        as Hc'.
      { intros run Hrun. destruct (decide (r = run)) as [->|?].
        - rewrite lookup_insert_eq. by exists d.
        - rewrite lookup_insert_ne by done. apply Hc.
          by destruct Hrun as [->|?]. }
      case_bool_decide as Hnew; simpl; split_and!; auto.
      + apply NoDup_app. split_and!; [done| |apply NoDup_singleton].
        intros x Hx ->%list_elem_of_singleton. by apply Hnew, Hv.
      + intros run. rewrite elem_of_app, list_elem_of_singleton, Hv.
        set_solver.
      + intros run [?| ->%list_elem_of_singleton]%elem_of_app; auto.
    - unfold Inv. simpl. split_and!; try done.
      + apply NoDup_nil_2.
      + intros run. set_solver.
      + by intros ? ?%elem_of_nil.
      + auto. }
  by eexists _, _.
Qed.

Lemma generate_runs_profile_run_union (tb_run_name tb_plugin_dir : string)
    (written cache : gmap string string) (visited : gset string)
    (yielded : list string) (profile_run : string) :
  generate_runs_profile_run is_dir tb_run_name tb_plugin_dir
    (written ∪ cache, visited, yielded) profile_run
  = let st := generate_runs_profile_run is_dir tb_run_name tb_plugin_dir
                (written, visited, yielded) profile_run in
    (st.1.1 ∪ cache, st.1.2, st.2).
Proof.
  unfold generate_runs_profile_run. destruct (is_dir _); [|done].
  case_bool_decide; simpl; by rewrite insert_union_l.
Qed.

(** The cache the pass starts from takes no part in it: the pass lays what
    it writes over the cache. *)
Lemma generate_runs_fold_union
    (plugin_assets : list (string * list string))
    (written cache : gmap string string) (visited : gset string)
    (yielded : list string) :
  generate_runs_fold is_dir PluginDirectory logdir plugin_assets
    (written ∪ cache, visited, yielded)
  = let st := generate_runs_fold is_dir PluginDirectory logdir plugin_assets
                (written, visited, yielded) in
    (st.1.1 ∪ cache, st.1.2, st.2).
Proof.
  unfold generate_runs_fold. revert written visited yielded.
  induction plugin_assets as [|item assets IH]; intros w v y; [done|].
  cbn [foldl].
  assert (∀ ps w v y,
            foldl (generate_runs_profile_run is_dir item.1
                     (PluginDirectory (_tb_run_directory logdir item.1)
                        PLUGIN_NAME))
              (w ∪ cache, v, y) ps
            = let st := foldl (generate_runs_profile_run is_dir item.1
                                 (PluginDirectory
                                    (_tb_run_directory logdir item.1)
                                    PLUGIN_NAME))
                          (w, v, y) ps in
              (st.1.1 ∪ cache, st.1.2, st.2)) as Hinner.
  { induction ps as [|p ps IHps]; intros w' v' y'; [done|].
    cbn [foldl]. rewrite generate_runs_profile_run_union. cbn zeta.
    destruct (generate_runs_profile_run _ _ _ (w', v', y') p) as [[w1 v1] y1].
    apply IHps. }
  rewrite Hinner. cbn zeta.
  match goal with
  | |- context [foldl ?f (w, v, y) item.2] =>
      generalize (foldl f (w, v, y) item.2)
  end.
  intros [[w1 v1] y1]. apply IH.
Qed.

(** X22: a second discovery pass over the same containers and assets,
    started from the cache the first pass left, yields the same run names
    and leaves the cache as it is; and the run names yielded do not depend
    on the cache the pass starts from. *)
Theorem generate_runs_from_idempotent (tb_runs : list string)
    (cache cache' other : gmap string string) (yielded : list string) :
  generate_runs_from is_dir PluginDirectory ListAssets logdir tb_runs cache
  = Ok (yielded, cache') →
  generate_runs_from is_dir PluginDirectory ListAssets logdir tb_runs cache'
  = Ok (yielded, cache')
  ∧ ∃ other', generate_runs_from is_dir PluginDirectory ListAssets logdir
                tb_runs other = Ok (yielded, other').
Proof.
  destruct (generate_runs_from_fold tb_runs cache) as (assets & _ & Hfold).
  assert (∀ c, generate_runs_from is_dir PluginDirectory ListAssets logdir
                 tb_runs c
               = let st := generate_runs_fold is_dir PluginDirectory logdir
                             assets (∅, ∅, []) in
                 Ok (st.2, st.1.1 ∪ c)) as Hover.
  { intros c. rewrite Hfold. cbn zeta.
    pose proof (generate_runs_fold_union assets ∅ c ∅ []) as Hunion.
    rewrite (left_id_L ∅ (∪)) in Hunion. by rewrite Hunion. }
  rewrite !Hover. simpl. intros [= <- <-]. split; [|by eexists].
  by rewrite (assoc_L (∪)), (idemp_L (∪)).
Qed.

Lemma rstrip_sep_free (s : string) : sep_free s = true → rstrip sep s = s.
Proof.
  induction s as [|c s IH]; [done|]. simpl.
  intros [Hc Hs]%andb_true_iff. apply negb_true_iff in Hc.
  rewrite IH, Hc by done. by destruct s.
Qed.

Lemma rstrip_app_sep_free (a p : string) :
  p ≠ "" → sep_free p = true → rstrip sep (a +:+ p) = a +:+ p.
Proof.
  intros Hne Hfree. induction a as [|c a IH].
  - by apply rstrip_sep_free.
  - rewrite string_app_cons. simpl. rewrite IH.
    destruct (a +:+ p) eqn:Hap; [|done].
    by destruct a, p.
Qed.

Lemma rstrip_no_trailing_sep (t : string) :
  endswith t "/" = false → rstrip sep t = t.
Proof.
  rewrite <- not_true_iff_false, endswith_app.
  induction t as [|c t IH]; [done|]. intros Hend. simpl.
  destruct t as [|d t].
  - simpl. destruct (Ascii.eqb_spec c sep) as [->|?]; [|done].
    destruct Hend. by exists "".
  - rewrite IH; [done|]. intros [h Hh]. apply Hend.
    exists (String c h). by rewrite string_app_cons, <- Hh.
Qed.

Lemma split_at_last_sep_free (p : string) :
  sep_free p = true → split_at_last_sep p = ("", p).
Proof.
  induction p as [|c p IH]; [done|]. simpl.
  intros [Hc Hp]%andb_true_iff. apply negb_true_iff in Hc.
  by rewrite IH, Hc.
Qed.

Lemma split_at_last_sep_app (a p : string) :
  sep_free p = true → split_at_last_sep (a +:+ "/" +:+ p) = (a +:+ "/", p).
Proof.
  intros Hfree. induction a as [|c a IH].
  - rewrite !string_app_nil_l.
    change ("/" +:+ p) with (String sep p). simpl.
    by rewrite split_at_last_sep_free.
  - rewrite (string_app_cons c a ("/" +:+ p)), (string_app_cons c a "/").
    change (split_at_last_sep (String c (a +:+ "/" +:+ p)))
      with (let '(head, tail) := split_at_last_sep (a +:+ "/" +:+ p) in
            if Ascii.eqb c sep then
              match head with
              | "" => (String c "", a +:+ "/" +:+ p)
              | _ => (String c head, tail)
              end
            else
              match head with
              | "" => ("", String c tail)
              | _ => (String c head, tail)
              end).
    rewrite IH. destruct (a +:+ "/") eqn:Ha; [by destruct a|].
    by destruct (Ascii.eqb c sep).
Qed.

Lemma os_path_join_component (t p : string) :
  t ≠ "" → endswith t "/" = false → p ≠ "" → sep_free p = true →
  os_path_join t p = t +:+ "/" +:+ p.
Proof.
  intros Ht Hend Hp Hfree. unfold os_path_join.
  destruct p as [|c p]; [done|]. simpl in Hfree.
  apply andb_true_iff in Hfree as [Hc _]. apply negb_true_iff in Hc.
  by rewrite Hc, Hend, bool_decide_false.
Qed.

(** [_run_dir] finds the directory the discovery pass caches for the
    profile run [p] of the container [t]. *)
Lemma run_dir_frontend_run (t p : string) :
  container_name t → p ≠ "" → sep_free p = true →
  is_dir (_tb_run_directory logdir t) = true →
  _run_dir is_dir PluginDirectory logdir
    (if bool_decide (t = ".") then p else os_path_join t p)
  = Ok (os_path_join (PluginDirectory (_tb_run_directory logdir t) PLUGIN_NAME)
          p).
Proof.
  intros Ht Hp Hfree Hdir. unfold _run_dir, os_path_split.
  case_bool_decide as Hroot.
  - subst t. rewrite rstrip_sep_free, split_at_last_sep_free by done.
    simpl. by rewrite Hdir.
  - destruct Ht as [?|[Hne Hend]]; [done|].
    rewrite os_path_join_component by done.
    rewrite <- (string_app_assoc t "/" p).
    rewrite (rstrip_app_sep_free (t +:+ "/") p) by done.
    rewrite (string_app_assoc t "/" p), split_at_last_sep_app by done.
    rewrite rstrip_app_sep, rstrip_no_trailing_sep by done.
    destruct t as [|c t]; [done|]. cbn [truthy negb].
    by rewrite Hdir.
Qed.

(** When the containers have names that [os.path.split] gives back, and
    are directories, and the profile runs listed beneath them are single
    path components, every run name yielded is cached with a directory
    that exists and that [_run_dir] finds again. *)
Lemma generate_runs_from_resolved (tb_runs : list string)
    (cache cache' : gmap string string) (yielded : list string) :
  (∀ t, t ∈ tb_runs →
     container_name t
     ∧ is_dir (_tb_run_directory logdir t) = true
     ∧ ∀ p, p ∈ ListAssets (_tb_run_directory logdir t) PLUGIN_NAME →
            profile_run_name p) →
  generate_runs_from is_dir PluginDirectory ListAssets logdir tb_runs cache
  = Ok (yielded, cache') →
  ∀ run, run ∈ yielded →
    ∃ dir, cache' !! run = Some dir
           ∧ is_dir dir = true
           ∧ _run_dir is_dir PluginDirectory logdir run = Ok dir.
Proof.
  intros Hnames.
  destruct (generate_runs_from_fold tb_runs cache) as (assets & Hitems & Hfold).
  rewrite Hfold. clear Hfold. cbn zeta. intros [= <- <-].
  apply (generate_runs_fold_ind
           (λ st, ∀ run, run ∈ st.2 →
              ∃ dir, st.1.1 !! run = Some dir
                     ∧ is_dir dir = true
                     ∧ _run_dir is_dir PluginDirectory logdir run = Ok dir));
    [|by intros ? ?%elem_of_nil].
  intros item p0 [[c v] y] Hitem Hp0 Hinv.
  destruct (Hitems item Hitem) as [Ht Hassets].
  destruct (Hnames _ Ht) as (Hname & Hdir & Hruns).
  destruct (Hruns p0) as [Hp Hfree]; [by rewrite <- Hassets|].
  pose proof (run_dir_frontend_run item.1 (rstrip sep p0) Hname Hp Hfree Hdir)
    as Hresolve.
  unfold generate_runs_profile_run. simpl in *.
  set (r := if bool_decide (item.1 = ".") then rstrip sep p0
            else os_path_join item.1 (rstrip sep p0)) in *.
  set (d := os_path_join
              (PluginDirectory (_tb_run_directory logdir item.1) PLUGIN_NAME)
              (rstrip sep p0)) in *.
  destruct (is_dir d) eqn:Hd; [|done].
  assert (∀ run, run = r ∨ run ∈ y →
            ∃ dir, <[r:=d]> c !! run = Some dir
                   ∧ is_dir dir = true
                   ∧ _run_dir is_dir PluginDirectory logdir run = Ok dir)
    as Hinv'.
  { intros run Hrun. destruct (decide (r = run)) as [<-|?].
    - rewrite lookup_insert_eq. by exists d.
    - rewrite lookup_insert_ne by done. apply Hinv.
      by destruct Hrun as [->|?]. }
  case_bool_decide; simpl; intros run Hrun; apply Hinv'.
  - apply elem_of_app in Hrun as [?| ->%list_elem_of_singleton]; auto.
  - by right.
Qed.

(** X23: when the containers have names that [os.path.split] gives back,
    and are directories, and the profile runs listed beneath them are
    single path components, every run name the discovery pass yields is
    resolved by [_run_dir] to the directory the pass cached for it. *)
Theorem generate_runs_from_run_dir (tb_runs : list string)
    (cache cache' : gmap string string) (yielded : list string) :
  (∀ t, t ∈ tb_runs →
     container_name t
     ∧ is_dir (_tb_run_directory logdir t) = true
     ∧ ∀ p, p ∈ ListAssets (_tb_run_directory logdir t) PLUGIN_NAME →
            profile_run_name p) →
  generate_runs_from is_dir PluginDirectory ListAssets logdir tb_runs cache
  = Ok (yielded, cache') →
  ∀ run, run ∈ yielded →
    ∃ dir, cache' !! run = Some dir
           ∧ _run_dir is_dir PluginDirectory logdir run = Ok dir.
Proof.
  intros Hnames Hpass run Hrun.
  destruct (generate_runs_from_resolved tb_runs cache cache' yielded
              Hnames Hpass run Hrun) as (dir & Hcached & _ & Hresolve).
  by exists dir.
Qed.

(** X24: under the same conditions, a run name the discovery pass yields
    can be queried.  Listing its hosts does not fail at [_run_dir]:
    [host_impl] is [_run_host_impl] on the cached directory, for every
    tool.  Enumerating its tools finds it in the cache, so no KeyError,
    and gives the active tools of the listing of the cached directory, or
    raises the OSError of that listing. *)
Theorem discovered_run_queries
    (xspace_to_tool_names : list string → result (list string))
    (iterdir : string → option (list string))
    (glob : string → string → result (list string)) (tb_runs : list string)
    (cache cache' : gmap string string) (yielded : list string)
    (run tool : string) :
  (∀ t, t ∈ tb_runs →
     container_name t
     ∧ is_dir (_tb_run_directory logdir t) = true
     ∧ ∀ p, p ∈ ListAssets (_tb_run_directory logdir t) PLUGIN_NAME →
            profile_run_name p) →
  generate_runs_from is_dir PluginDirectory ListAssets logdir tb_runs cache
  = Ok (yielded, cache') →
  run ∈ yielded →
  ∃ dir,
    cache' !! run = Some dir
    ∧ is_dir dir = true
    ∧ host_impl is_dir glob PluginDirectory logdir run tool
      = _run_host_impl glob run dir tool
    ∧ generate_tools_of_run xspace_to_tool_names is_dir iterdir cache' run
      = match iterdir dir with
        | Some names =>
            _get_active_tools xspace_to_tool_names
              (os_path_basename <$> names) dir
        | None => Raise OSError
        end.
Proof.
  intros Hnames Hpass Hrun.
  destruct (generate_runs_from_resolved tb_runs cache cache' yielded
              Hnames Hpass run Hrun) as (dir & Hcached & Hdir & Hresolve).
  exists dir. split_and!; try done.
  - unfold host_impl. by rewrite Hresolve.
  - unfold generate_tools_of_run, getitem, iterdir_call.
    rewrite Hcached. simpl. rewrite Hdir.
    by destruct (iterdir dir).
Qed.
End discovery_properties.

Lemma generate_runs_from_cache_witness :
  generate_runs_from profile_is_dir plugins_directory profile_list_assets
    "/logs" ["."] ∅
  = Ok (["run1"], {[ "run1" := run1_dir ]}).
Proof.
  destruct (generate_runs_from_cache profile_is_dir plugins_directory
              profile_list_assets "/logs" ["."] ∅)
    as (yielded & cache' & Hrun & _).
  vm_compute in Hrun. injection Hrun as <- <-. vm_compute. reflexivity.
Defined.

Lemma generate_runs_from_idempotent_witness :
  generate_runs_from profile_is_dir plugins_directory profile_list_assets
    "/logs" ["."] {[ "run1" := run1_dir ]}
  = Ok (["run1"], {[ "run1" := run1_dir ]}).
Proof.
  apply (generate_runs_from_idempotent profile_is_dir plugins_directory
           profile_list_assets "/logs" ["."] ∅ _ ∅).
  vm_compute. reflexivity.
Defined.

Lemma generate_runs_from_run_dir_witness :
  ∃ dir,
    ({[ "run1" := run1_dir ]} : gmap string string) !! "run1" = Some dir
    ∧ _run_dir profile_is_dir plugins_directory "/logs" "run1" = Ok dir.
Proof.
  apply (generate_runs_from_run_dir profile_is_dir plugins_directory
           profile_list_assets "/logs" ["."] ∅ _ ["run1"]).
  - intros t ->%list_elem_of_singleton. split_and!.
    + by left.
    + vm_compute. reflexivity.
    + intros p ->%list_elem_of_singleton. split; [discriminate|].
      vm_compute. reflexivity.
  - vm_compute. reflexivity.
  - left.
Defined.

Lemma discovered_run_queries_witness :
  ∃ dir,
    ({[ "run1" := run1_dir ]} : gmap string string) !! "run1" = Some dir
    ∧ profile_is_dir dir = true
    ∧ host_impl profile_is_dir profile_glob plugins_directory "/logs"
        "run1" "trace_viewer"
      = _run_host_impl profile_glob "run1" dir "trace_viewer"
    ∧ generate_tools_of_run (collaborator_returning ["trace_viewer@"])
        profile_is_dir profile_iterdir {[ "run1" := run1_dir ]} "run1"
      = match profile_iterdir dir with
        | Some names =>
            _get_active_tools (collaborator_returning ["trace_viewer@"])
              (os_path_basename <$> names) dir
        | None => Raise OSError
        end.
Proof.
  apply (discovered_run_queries profile_is_dir plugins_directory
           profile_list_assets "/logs"
           (collaborator_returning ["trace_viewer@"]) profile_iterdir
           profile_glob ["."] ∅ _ ["run1"]).
  - intros t ->%list_elem_of_singleton. split_and!.
    + by left.
    + vm_compute. reflexivity.
    + intros p ->%list_elem_of_singleton. split; [discriminate|].
      vm_compute. reflexivity.
  - vm_compute. reflexivity.
  - left.
Defined.
